(** * Sniper News Intelligence: dashboard logic, storage schema, pipeline

  A shallow embedding of the parts of the repository that the
  specification talks about:

  - the React components [SentimentPanel], [NewsFeed], [ArchiveLookup]
    and the [Dashboard] of the application shell (pure parts of the
    render functions, the event handlers and the effect that re-runs the
    archive search);
  - the storage schema of [init-db.sql] (tables [news_articles],
    [sentiment_analyses], [market_impacts], their constraints and the
    hypertable declaration), with the statements a client can issue
    against it;
  - the write paths of the Python backend (ingestion, ensemble scoring,
    embedding, market impact correlation), which are not among the
    sources and are modelled from the specification, each as a
    transaction against the schema.

  JavaScript numbers that arrive through JSON are finite doubles; they
  are modelled as exact rationals, the decimal literal [0.1] denoting
  the same number wherever it occurs. *)

From Stdlib Require Import ZArith QArith Qabs Qround Qminmax List String Ascii Bool.
From Stdlib Require Import Lia Lqa Permutation Sorted.
Import ListNotations.

Set Implicit Arguments.

(* ===================================================================== *)
(** ** A small JavaScript layer *)
(* ===================================================================== *)

Module Js.

(** A numeric property of a JSON object: a number, [null], or missing
    ([undefined]). *)
Inductive value : Type :=
| VNum (q : Q)
| VNull
| VUndefined.

(** [ToNumber]: [null] is [0], [undefined] is [NaN] (here [None]). *)
Definition toNumber (v : value) : option Q :=
  match v with
  | VNum q => Some q
  | VNull => Some 0%Q
  | VUndefined => None
  end.

Definition Qlt_bool (x y : Q) : bool := negb (Qle_bool y x).

(** [v > c] and [v < c] for a numeric literal [c]; any comparison with
    [NaN] is [false]. *)
Definition gt (v : value) (c : Q) : bool :=
  match toNumber v with
  | Some q => Qlt_bool c q
  | None => false
  end.

Definition lt (v : value) (c : Q) : bool :=
  match toNumber v with
  | Some q => Qlt_bool q c
  | None => false
  end.

(** [v || 0]: [null], [undefined] and [0] are falsy. *)
Definition orZero (v : value) : Q :=
  match v with
  | VNum q => if Qeq_bool q 0 then 0%Q else q
  | VNull | VUndefined => 0%Q
  end.

(** Truthiness of a string ([''] is falsy) and of a nullable string. *)
Definition truthyString (s : string) : bool :=
  match s with
  | EmptyString => false
  | String _ _ => true
  end.

(** [s || d] on a nullable string. *)
Definition orString (s : option string) (d : string) : string :=
  match s with
  | Some x => if truthyString x then x else d
  | None => d
  end.

(** [String.prototype.toLowerCase], on the ASCII letters. *)
Definition lowerAscii (c : ascii) : ascii :=
  let n := nat_of_ascii c in
  if (Nat.leb 65 n && Nat.leb n 90)%bool then ascii_of_nat (n + 32) else c.

Fixpoint toLowerCase (s : string) : string :=
  match s with
  | EmptyString => EmptyString
  | String c r => String (lowerAscii c) (toLowerCase r)
  end.

(** [hay.includes(needle)]. *)
Fixpoint includes (hay needle : string) : bool :=
  if prefix needle hay then true
  else match hay with
       | EmptyString => false
       | String _ r => includes r needle
       end.

(** [a === b] where [a] may be [null]/[undefined] and [b] is a string. *)
Definition strictEq (a : option string) (b : string) : bool :=
  match a with
  | Some x => String.eqb x b
  | None => false
  end.

(** Result of evaluating an expression that reads properties: reading
    a property of [null] or [undefined] throws a [TypeError]. *)
Inductive result (A : Type) : Type :=
| Ok (a : A)
| TypeError.
Arguments TypeError {A}.

Definition bind {A B} (r : result A) (k : A -> result B) : result B :=
  match r with
  | Ok a => k a
  | TypeError => TypeError
  end.

(** [o.p] for a possibly absent object [o]. *)
Definition prop {O A} (o : option O) (p : O -> A) : result A :=
  match o with
  | Some x => Ok (p x)
  | None => TypeError
  end.

(** [o?.p]: optional chaining yields [undefined] instead of throwing. *)
Definition optProp {O A} (o : option O) (p : O -> option A) : option A :=
  match o with
  | Some x => p x
  | None => None
  end.

Definition isNullish {A} (o : option A) : bool :=
  match o with
  | Some _ => false
  | None => true
  end.

(** [Array.prototype.sort(compareFn)]: a stable sort; [compareFn(x, y) > 0]
    places [y] before [x]. For a consistent comparison function every
    stable sort returns the same array, so the insertion sort below
    stands for the host's algorithm. *)
Fixpoint insertSorted {A} (compareFn : A -> A -> Q) (x : A) (l : list A)
  : list A :=
  match l with
  | [] => [x]
  | y :: r =>
      if Qlt_bool 0 (compareFn x y) then y :: insertSorted compareFn x r
      else x :: l
  end.

Definition sort {A} (compareFn : A -> A -> Q) (l : list A) : list A :=
  fold_right (insertSorted compareFn) [] l.

End Js.

Notation "x <- r ;; k" := (Js.bind r (fun x => k))
(at level 61, r at next level, right associativity).

Local Open Scope string_scope.

(* ===================================================================== *)
(** ** SentimentPanel.jsx *)
(* ===================================================================== *)

Module SentimentPanel.

(** Shape of the response of [/news/sentiment/trends]; every object
    reference may be [null] or missing. *)
Record TrendItem : Type := {
  published_at : string;
  sentiment_score : Js.value;
  title : string;
  ticker : option string
}.

Record Distribution : Type := {
  positive : Js.value;
  negative : Js.value;
  neutral : Js.value
}.

Record Summary : Type := {
  total_articles : Js.value;
  average_sentiment : Js.value;
  sentiment_distribution : option Distribution
}.

Record TrendsData : Type := {
  trends : option (list TrendItem);
  summary : option Summary
}.

Inductive Icon : Type := TrendingUp | TrendingDown | Activity.

Record Trend : Type := {
  direction : string;
  color : string;
  icon : Icon
}.

(** [getSentimentTrend(average)]. *)
Definition getSentimentTrend (average : Js.value) : Trend :=
  if Js.gt average (1 # 10)
  then {| direction := "up"; color := "text-green-600"; icon := TrendingUp |}
  else if Js.lt average (-1 # 10)
  then {| direction := "down"; color := "text-red-600"; icon := TrendingDown |}
  else {| direction := "neutral"; color := "text-gray-600"; icon := Activity |}.

(** The badge of a row of the "Recent Articles" list: the text and the
    class chosen from [article.sentiment_score]. *)
Definition sentimentBadge (score : Js.value) : string :=
  if Js.gt score (1 # 10) then "Positive"
  else if Js.lt score (-1 # 10) then "Negative"
  else "Neutral".

Definition sentimentBadgeClass (score : Js.value) : string :=
  if Js.gt score (1 # 10) then "bg-green-100 text-green-800"
  else if Js.lt score (-1 # 10) then "bg-red-100 text-red-800"
  else "bg-gray-100 text-gray-800".

(** [(trendsData?.trends || []).slice(0, 3).map(...)]: title and badge of
    the rows shown. *)
Definition recentArticles (trendsData : option TrendsData)
  : list (string * string) :=
  let rows := match Js.optProp trendsData trends with
              | Some l => l
              | None => []
              end in
  map (fun article => (title article, sentimentBadge (sentiment_score article)))
      (firstn 3 rows).

Definition zeroDistribution : Distribution :=
  {| positive := Js.VNum 0; negative := Js.VNum 0; neutral := Js.VNum 0 |}.

Definition zeroSummary : Summary :=
  {| total_articles := Js.VNum 0;
     average_sentiment := Js.VNum 0;
     sentiment_distribution := Some zeroDistribution |}.

(** [getSentimentSummary()], reading the component state [trendsData]. *)
Definition getSentimentSummary (trendsData : option TrendsData)
  : Js.result (option Summary) :=
  absent <- (if Js.isNullish trendsData then Js.Ok true
             else s <- Js.prop trendsData summary ;; Js.Ok (Js.isNullish s)) ;;
  if (absent : bool) then Js.Ok (Some zeroSummary)
  else Js.prop trendsData summary.

Record PieSlice : Type := {
  name : string;
  value : Q;
  slice_color : string
}.

Definition pie (p n u : Q) : list PieSlice :=
  [ {| name := "Positive"; value := p; slice_color := "#10B981" |};
    {| name := "Negative"; value := n; slice_color := "#EF4444" |};
    {| name := "Neutral"; value := u; slice_color := "#6B7280" |} ].

(** [formatPieData(summary)]. *)
Definition formatPieData (summary : option Summary)
  : Js.result (list PieSlice) :=
  absent <- (if Js.isNullish summary then Js.Ok true
             else d <- Js.prop summary sentiment_distribution ;;
                  Js.Ok (Js.isNullish d)) ;;
  if (absent : bool) then Js.Ok (pie 0 0 0)
  else
    distribution <- Js.prop summary sentiment_distribution ;;
    p <- Js.prop distribution positive ;;
    n <- Js.prop distribution negative ;;
    u <- Js.prop distribution neutral ;;
    Js.Ok (pie (Js.orZero p) (Js.orZero n) (Js.orZero u)).

Record ChartPoint : Type := {
  time : string;
  sentiment : string;
  rawScore : Js.value;
  chart_title : string;
  chart_ticker : string
}.

Record PanelView : Type := {
  shown_total : Q;
  shown_average : Q;
  shown_trend : Trend;
  chartData : list ChartPoint;
  pieData : list PieSlice
}.

Section Formatting.

(** Locale and number formatting of the host: [new Date(s)
    .toLocaleTimeString('en-US', ...)] and [(v * 100).toFixed(1)]. *)
Variable toLocaleTimeString : string -> string.
Variable percentFixed1 : Js.value -> string.

(** [formatChartData(trends)]. *)
Definition formatChartData (trends : option (list TrendItem))
  : list ChartPoint :=
  match trends with
  | None => []
  | Some [] => []
  | Some l =>
      map (fun item =>
             {| time := toLocaleTimeString (published_at item);
                sentiment := percentFixed1 (sentiment_score item);
                rawScore := sentiment_score item;
                chart_title := substring 0 50 (title item) ++ "...";
                chart_ticker := Js.orString (ticker item) "N/A" |})
          (firstn 20 l)
  end.

(** The values the render function computes once [loading] and [error]
    are cleared: [summary], [trend], [chartData], [pieData] and the two
    numbers of the summary cards ([summary.total_articles || 0] and
    [summary.average_sentiment || 0], the latter before scaling). *)
Definition renderPanel (trendsData : option TrendsData)
  : Js.result PanelView :=
  summary <- getSentimentSummary trendsData ;;
  average <- Js.prop summary average_sentiment ;;
  let trend := getSentimentTrend average in
  let chart := formatChartData
                 (Some match Js.optProp trendsData trends with
                       | Some l => l
                       | None => []
                       end) in
  pieD <- formatPieData summary ;;
  total <- Js.prop summary total_articles ;;
  Js.Ok {| shown_total := Js.orZero total;
           shown_average := Js.orZero average;
           shown_trend := trend;
           chartData := chart;
           pieData := pieD |}.

End Formatting.

End SentimentPanel.

(* ===================================================================== *)
(** ** Dashboard (application shell) *)
(* ===================================================================== *)

Module Dashboard.

Record TickerEntry : Type := {
  ticker : string;
  count : Q
}.

Record Stats : Type := {
  total_articles : Q;
  processed_articles : Q;
  processing_rate : Q;
  average_sentiment : Q;
  top_tickers : list TickerEntry
}.

(** Initial value of the [stats] state. *)
Definition initialStats : Stats :=
  {| total_articles := 0;
     processed_articles := 0;
     processing_rate := 0;
     average_sentiment := 0;
     top_tickers := [] |}.

(** [fetchStats]: the response replaces the state; on a failed request
    the existing state is kept. *)
Definition fetchStats (response : option Stats) (stats : Stats) : Stats :=
  match response with
  | Some data => data
  | None => stats
  end.

(** [getSentimentChangeType(value)]. *)
Definition getSentimentChangeType (v : Q) : string :=
  if Qle_bool 0 v then "positive" else "negative".

(** Text of the "Active Tickers" card: [stats.top_tickers.length] and
    [stats.top_tickers[0]?.ticker || 'N/A']. *)
Definition activeTickers (stats : Stats) : nat * string :=
  (List.length (top_tickers stats),
   Js.orString (Js.optProp (nth_error (top_tickers stats) 0)
                           (fun t => Some (ticker t))) "N/A").

End Dashboard.

(* ===================================================================== *)
(** ** Articles as delivered by the news endpoints *)
(* ===================================================================== *)

Module NewsApi.

(** The properties of an article object that the components read.
    [published_at] is the instant the ISO-8601 string denotes, in
    milliseconds since the epoch, as [new Date(...)] reads it (the column
    is a [TIMESTAMP NOT NULL]). *)
Record Article : Type := {
  id : string;
  title : string;
  ticker_symbol : option string;
  published_at : Z;
  sentiment_score : Js.value;
  sentiment_label : option string
}.

End NewsApi.

(* ===================================================================== *)
(** ** NewsFeed.jsx *)
(* ===================================================================== *)

Module NewsFeed.
Import NewsApi.

(** The predicate passed to [articles.filter]. *)
Definition matches (filter tickerFilter : string) (article : Article) : bool :=
  let matchesFilter :=
    (filter =? "all") || Js.strictEq (sentiment_label article) filter in
  let matchesTicker :=
    negb (Js.truthyString tickerFilter) ||
    match ticker_symbol article with
    | Some t =>
        Js.truthyString t &&
        Js.includes (Js.toLowerCase t) (Js.toLowerCase tickerFilter)
    | None => false
    end in
  matchesFilter && matchesTicker.

(** [filteredArticles]. *)
Definition filteredArticles (filter tickerFilter : string)
  (articles : list Article) : list Article :=
  List.filter (matches filter tickerFilter) articles.

End NewsFeed.

(* ===================================================================== *)
(** ** ArchiveLookup.jsx *)
(* ===================================================================== *)

Module ArchiveLookup.
Import NewsApi.

Record State : Type := {
  articles : list Article;
  error : option string;
  currentPage : Z;
  totalPages : Z
}.

(** [useState] initial values. *)
Definition initialState : State :=
  {| articles := []; error := None; currentPage := 1; totalPages := 1 |}.

(** [getMockArchiveData()]. *)
Definition getMockArchiveData : list Article :=
  [ {| id := "1";
       title := "Apple Reports Record Q4 Revenue Driven by iPhone Sales";
       ticker_symbol := Some "AAPL";
       published_at := 1702650600000;
       sentiment_score := Js.VNum (85 # 100);
       sentiment_label := Some "positive" |};
    {| id := "2";
       title := "Tesla Faces Production Delays Due to Supply Chain Issues";
       ticker_symbol := Some "TSLA";
       published_at := 1702545300000;
       sentiment_score := Js.VNum (-45 # 100);
       sentiment_label := Some "negative" |};
    {| id := "3";
       title := "Microsoft Cloud Services Show Strong Growth in Q3";
       ticker_symbol := Some "MSFT";
       published_at := 1702485900000;
       sentiment_score := Js.VNum (72 # 100);
       sentiment_label := Some "positive" |};
    {| id := "4";
       title := "Google Announces New AI Research Initiative";
       ticker_symbol := Some "GOOGL";
       published_at := 1702380000000;
       sentiment_score := Js.VNum (38 # 100);
       sentiment_label := Some "positive" |};
    {| id := "5";
       title := "Amazon Faces Regulatory Scrutiny Over Market Dominance";
       ticker_symbol := Some "AMZN";
       published_at := 1702300200000;
       sentiment_score := Js.VNum (-28 # 100);
       sentiment_label := Some "negative" |} ].

(** The two optional filters of [searchArticles]. *)
Definition applyFilters (selectedTicker sentimentFilter : string)
  (data : list Article) : list Article :=
  let byTicker :=
    if Js.truthyString selectedTicker
    then List.filter
           (fun article =>
              match ticker_symbol article with
              | Some t =>
                  Js.includes (Js.toLowerCase t) (Js.toLowerCase selectedTicker)
              | None => false
              end) data
    else data in
  if negb (sentimentFilter =? "all")
  then List.filter
         (fun article => Js.strictEq (sentiment_label article) sentimentFilter)
         byTicker
  else byTicker.

(** [Math.ceil(filteredArticles.length / 10)]. *)
Definition pageCount (filteredArticles : list Article) : Z :=
  Qceiling (inject_Z (Z.of_nat (List.length filteredArticles)) / 10).

Section Search.

(** [String.prototype.localeCompare] of the host. *)
Variable localeCompare : string -> string -> Q.

(** The comparison function given to [filteredArticles.sort]. *)
Definition compareArticles (sortBy : string) (a b : Article) : Q :=
  if sortBy =? "date" then inject_Z (published_at b - published_at a)
  else if sortBy =? "sentiment"
  then Js.orZero (sentiment_score b) - Js.orZero (sentiment_score a)
  else if sortBy =? "title" then localeCompare (title a) (title b)
  else 0.

(** The list [searchArticles] stores with [setArticles] when the request
    succeeds with [data]. *)
Definition searchResults (selectedTicker sentimentFilter sortBy : string)
  (data : list Article) : list Article :=
  Js.sort (compareArticles sortBy)
          (applyFilters selectedTicker sentimentFilter data).

(** [searchArticles], given the outcome of the request ([None]: the
    request failed and the mock data is shown). *)
Definition searchArticles (selectedTicker sentimentFilter sortBy : string)
  (response : option (list Article)) (s : State) : State :=
  match response with
  | Some data =>
      let filteredArticles :=
        searchResults selectedTicker sentimentFilter sortBy data in
      {| articles := filteredArticles;
         error := None;
         currentPage := currentPage s;
         totalPages := pageCount filteredArticles |}
  | None =>
      {| articles := getMockArchiveData;
         error := Some "Failed to search articles";
         currentPage := currentPage s;
         totalPages := 3 |}
  end.

End Search.

Definition setCurrentPage (p : Z) (s : State) : State :=
  {| articles := articles s;
     error := error s;
     currentPage := p;
     totalPages := totalPages s |}.

(** The two pagination buttons. *)
Inductive Action : Type := Previous | Next.

(** The [onClick] handlers. *)
Definition onClick (a : Action) (s : State) : State :=
  match a with
  | Previous => setCurrentPage (Z.max 1 (currentPage s - 1)) s
  | Next => setCurrentPage (Z.min (totalPages s) (currentPage s + 1)) s
  end.

(** [disabled]: a disabled button does not fire its handler. *)
Definition disabled (a : Action) (s : State) : bool :=
  match a with
  | Previous => (currentPage s =? 1)%Z
  | Next => (currentPage s =? totalPages s)%Z
  end.

(** The pagination bar, and with it the two buttons, is rendered only
    below a non-empty result list and when [totalPages > 1]. (The
    [loading] flag, which hides the results while a request is pending,
    is not part of this state: the states below are the settled ones.) *)
Definition paginationRendered (s : State) : bool :=
  match articles s with
  | [] => false
  | _ :: _ => (1 <? totalPages s)%Z
  end.

(** A press of a pagination button: it changes the state only when the
    button is rendered and not disabled. *)
Definition press (a : Action) (s : State) : State :=
  if paginationRendered s && negb (disabled a s) then onClick a s else s.

(** The five filter states of the search form. *)
Record Filters : Type := {
  searchQuery : string;
  selectedTicker : string;
  dateRange : string;
  sentimentFilter : string;
  sortBy : string
}.

(** [useState] initial values of the five filter states. *)
Definition initialFilters : Filters :=
  {| searchQuery := EmptyString;
     selectedTicker := EmptyString;
     dateRange := "7d";
     sentimentFilter := "all";
     sortBy := "date" |}.

(** [clearFilters]. *)
Definition clearFilters (s : State) : Filters * State :=
  (initialFilters, setCurrentPage 1 s).

(** The guard of the effect that re-runs the search:
    [searchQuery || selectedTicker]. *)
Definition effectSearches (f : Filters) : bool :=
  Js.truthyString (searchQuery f) || Js.truthyString (selectedTicker f).

(** [handleSearch]: [setCurrentPage(1)] and [searchArticles()], given the
    outcome of the request. (When the page was not 1 and a query or a
    ticker is set, the effect then runs the search once more; the state
    here is the one after the handler's own request.) *)
Definition handleSearch (localeCompare : string -> string -> Q)
  (f : Filters) (response : option (list Article)) (s : State) : State :=
  searchArticles localeCompare (selectedTicker f) (sentimentFilter f)
    (sortBy f) response (setCurrentPage 1 s).

(** A press and what follows it. [currentPage] is a dependency of the
    effect, so a press that changes it re-runs [searchArticles] when a
    query or a ticker is set; [response] is the outcome of that request,
    and the state returned is the one after the request has settled. *)
Definition pressAndSettle (localeCompare : string -> string -> Q)
  (f : Filters) (a : Action) (response : option (list Article)) (s : State)
  : State :=
  let s1 := press a s in
  if negb (currentPage s1 =? currentPage s)%Z && effectSearches f
  then searchArticles localeCompare (selectedTicker f) (sentimentFilter f)
         (sortBy f) response s1
  else s1.

(** A sequence of button presses, oldest first, each with the outcome
    of the request it may trigger and each made after the previous one
    has settled. *)
Definition pressAll (localeCompare : string -> string -> Q) (f : Filters)
  (acts : list (Action * option (list Article))) (s : State) : State :=
  fold_left
    (fun st act => pressAndSettle localeCompare f (fst act) (snd act) st)
    acts s.

End ArchiveLookup.

(* ===================================================================== *)
(** ** init-db.sql: the storage schema *)
(* ===================================================================== *)

Module Schema.

(** Column types. A text value is a sequence of characters and a
    [string] lists them, one element per character. A [FLOAT] column is
    a double precision value: a finite number, idealised as the rational
    it denotes and kept within the range of the type by the column check
    below, one of the two infinities, or [NaN]. [VARCHAR(n)] and
    [vector(d)] carry their bound in the column checks. *)
Definition uuid : Type := N.
Definition timestamp : Type := Z.
Definition jsonb : Type := string.
Definition vector : Type := list Q.

Inductive float8 : Type :=
| Finite (q : Q)
| PosInfinity
| NegInfinity
| NaN.

(** A column declared [NOT NULL] (or part of the primary key) has its
    base type; any other column is an [option], [None] being [NULL].
    Column defaults ([gen_random_uuid()], [CURRENT_TIMESTAMP], [FALSE],
    [24]) are filled in by the statement that builds the row. *)
Record news_article : Type := {
  id : uuid;
  published_at : timestamp;
  title : string;
  content : string;
  summary : option string;
  url : string;
  source : string;
  author : option string;
  ticker_symbol : option string;
  company_name : option string;
  sector : option string;
  industry : option string;
  created_at : option timestamp;
  updated_at : option timestamp;
  sentiment_score : option float8;
  sentiment_label : option string;
  confidence_score : option float8;
  sentiment_vector : option vector;
  content_vector : option vector;
  keywords : option jsonb;
  entities : option jsonb;
  market_impact_score : option float8;
  is_processed : option bool;
  is_archived : option bool;
  raw_data : option jsonb
}.

Record sentiment_analysis : Type := {
  sa_id : uuid;
  sa_article_id : uuid;
  sa_model_name : string;
  sa_analysis_type : string;
  sa_sentiment_score : float8;
  sa_sentiment_label : string;
  sa_confidence_score : option float8;
  sa_embedding_vector : option vector;
  sa_processing_time_ms : option Z;
  sa_created_at : option timestamp;
  sa_analysis_data : option jsonb
}.

Record market_impact : Type := {
  mi_id : uuid;
  mi_article_id : uuid;
  mi_ticker_symbol : string;
  price_before : option float8;
  price_after : option float8;
  price_change_percent : option float8;
  volume_change_percent : option float8;
  impact_window_hours : Z;
  measurement_time : timestamp;
  sentiment_price_correlation : option float8;
  impact_score : option float8;
  mi_created_at : option timestamp;
  mi_analysis_data : option jsonb
}.

(** *** Column checks *)

(** The value fits a [VARCHAR(n)] column as it is. *)
Definition within (n : nat) (s : string) : bool :=
  Nat.leb (String.length s) n.

Fixpoint spaces (s : string) : bool :=
  match s with
  | EmptyString => true
  | String c r => Ascii.eqb c " "%char && spaces r
  end.

(** Assignment to a [VARCHAR(n)] column: a value of at most [n]
    characters is stored as it is; a longer one is stored cut to [n]
    characters when all the characters cut off are spaces, and is
    refused otherwise. *)
Definition varchar (n : nat) (s : string) : option string :=
  if within n s then Some s
  else if spaces (substring n (String.length s - n) s)
  then Some (substring 0 n s)
  else None.

Definition opt {A} (check : A -> bool) (x : option A) : bool :=
  match x with
  | Some a => check a
  | None => true
  end.

Definition dims (d : nat) (v : vector) : bool :=
  Nat.eqb (List.length v) d.

Definition int4 (z : Z) : bool :=
  (Z.leb (- 2147483648) z && Z.leb z 2147483647)%bool.

(** The range of double precision. A finite value other than zero is
    refused when it rounds to zero or to an infinity: its magnitude has
    to lie strictly between [2^-1075] and [2^1024 - 2^970]. *)
Definition double_underflow : Q := 1 # (2 ^ 1075)%positive.
Definition double_overflow : Q := inject_Z (2 ^ 1024 - 2 ^ 970)%Z.

Definition double (x : float8) : bool :=
  match x with
  | Finite q =>
      Qeq_bool q 0 ||
      (Js.Qlt_bool double_underflow (Qabs q) &&
       Js.Qlt_bool (Qabs q) double_overflow)
  | PosInfinity | NegInfinity | NaN => true
  end.

(** A row fits its table as it is. *)
Definition news_article_ok (r : news_article) : bool :=
  within 500 (title r) && within 1000 (url r) && within 100 (source r) &&
  opt (within 200) (author r) && opt (within 10) (ticker_symbol r) &&
  opt (within 200) (company_name r) && opt (within 100) (sector r) &&
  opt (within 100) (industry r) && opt (within 20) (sentiment_label r) &&
  opt (dims 768) (sentiment_vector r) && opt (dims 1536) (content_vector r) &&
  opt double (sentiment_score r) && opt double (confidence_score r) &&
  opt double (market_impact_score r).

Definition sentiment_analysis_ok (r : sentiment_analysis) : bool :=
  within 100 (sa_model_name r) && within 50 (sa_analysis_type r) &&
  within 20 (sa_sentiment_label r) &&
  opt (dims 768) (sa_embedding_vector r) && opt int4 (sa_processing_time_ms r) &&
  double (sa_sentiment_score r) && opt double (sa_confidence_score r).

Definition market_impact_ok (r : market_impact) : bool :=
  within 10 (mi_ticker_symbol r) && int4 (impact_window_hours r) &&
  opt double (price_before r) && opt double (price_after r) &&
  opt double (price_change_percent r) && opt double (volume_change_percent r) &&
  opt double (sentiment_price_correlation r) && opt double (impact_score r).

(** *** Rows as stored

    The row a statement writes is stored with its [VARCHAR] values
    assigned as above, or refused. *)

Definition opt_varchar (n : nat) (x : option string) : option (option string) :=
  match x with
  | Some s => option_map Some (varchar n s)
  | None => Some None
  end.

Definition news_article_stored (r : news_article) : option news_article :=
  match varchar 500 (title r), varchar 1000 (url r), varchar 100 (source r),
        opt_varchar 200 (author r), opt_varchar 10 (ticker_symbol r),
        opt_varchar 200 (company_name r), opt_varchar 100 (sector r),
        opt_varchar 100 (industry r), opt_varchar 20 (sentiment_label r)
  with
  | Some title', Some url', Some source', Some author', Some ticker_symbol',
    Some company_name', Some sector', Some industry', Some sentiment_label' =>
      let r' :=
        {| id := id r;
           published_at := published_at r;
           title := title';
           content := content r;
           summary := summary r;
           url := url';
           source := source';
           author := author';
           ticker_symbol := ticker_symbol';
           company_name := company_name';
           sector := sector';
           industry := industry';
           created_at := created_at r;
           updated_at := updated_at r;
           sentiment_score := sentiment_score r;
           sentiment_label := sentiment_label';
           confidence_score := confidence_score r;
           sentiment_vector := sentiment_vector r;
           content_vector := content_vector r;
           keywords := keywords r;
           entities := entities r;
           market_impact_score := market_impact_score r;
           is_processed := is_processed r;
           is_archived := is_archived r;
           raw_data := raw_data r |} in
      if news_article_ok r' then Some r' else None
  | _, _, _, _, _, _, _, _, _ => None
  end.

Definition sentiment_analysis_stored (r : sentiment_analysis)
  : option sentiment_analysis :=
  match varchar 100 (sa_model_name r), varchar 50 (sa_analysis_type r),
        varchar 20 (sa_sentiment_label r)
  with
  | Some model_name', Some analysis_type', Some sentiment_label' =>
      let r' :=
        {| sa_id := sa_id r;
           sa_article_id := sa_article_id r;
           sa_model_name := model_name';
           sa_analysis_type := analysis_type';
           sa_sentiment_score := sa_sentiment_score r;
           sa_sentiment_label := sentiment_label';
           sa_confidence_score := sa_confidence_score r;
           sa_embedding_vector := sa_embedding_vector r;
           sa_processing_time_ms := sa_processing_time_ms r;
           sa_created_at := sa_created_at r;
           sa_analysis_data := sa_analysis_data r |} in
      if sentiment_analysis_ok r' then Some r' else None
  | _, _, _ => None
  end.

Definition market_impact_stored (r : market_impact) : option market_impact :=
  match varchar 10 (mi_ticker_symbol r) with
  | Some ticker_symbol' =>
      let r' :=
        {| mi_id := mi_id r;
           mi_article_id := mi_article_id r;
           mi_ticker_symbol := ticker_symbol';
           price_before := price_before r;
           price_after := price_after r;
           price_change_percent := price_change_percent r;
           volume_change_percent := volume_change_percent r;
           impact_window_hours := impact_window_hours r;
           measurement_time := measurement_time r;
           sentiment_price_correlation := sentiment_price_correlation r;
           impact_score := impact_score r;
           mi_created_at := mi_created_at r;
           mi_analysis_data := mi_analysis_data r |} in
      if market_impact_ok r' then Some r' else None
  | None => None
  end.

(** *** Tables with a primary key

    A table has no order of its own. The list lists its rows in the
    order of a sequential scan: a new row comes last, and so does the
    new version of a row that an [UPDATE] rewrites. *)

Section Table.

Variables (R K : Type).
Variable key : R -> K.
Variable key_eqb : K -> K -> bool.
Variable stored : R -> option R.

(** No stored row has key [k]. *)
Definition key_free (k : K) (t : list R) : bool :=
  forallb (fun r => negb (key_eqb (key r) k)) t.

(** [INSERT]: the row is stored, or the statement fails and stores
    nothing. *)
Definition insert (r : R) (t : list R) : option (list R) :=
  match stored r with
  | Some r' => if key_free (key r') t then Some (t ++ [r'])%list else None
  | None => None
  end.

(** [UPDATE ... SET ... WHERE ...]. The rows that satisfy the condition
    are rewritten one after the other; the primary key is checked at each
    row, against the rows as they are at that moment, and a row that
    fails fails the statement, which then changes nothing. [pending]
    holds the rows of the table still to be visited. *)
Fixpoint update_rows (cond : R -> bool) (set : R -> R) (pending t : list R)
  : option (list R) :=
  match pending with
  | [] => Some t
  | r :: rest =>
      if cond r then
        match stored (set r) with
        | Some r' =>
            let others :=
              List.filter (fun x => negb (key_eqb (key x) (key r))) t in
            if key_free (key r') others
            then update_rows cond set rest (others ++ [r'])%list
            else None
        | None => None
        end
      else update_rows cond set rest t
  end.

Definition update (cond : R -> bool) (set : R -> R) (t : list R)
  : option (list R) :=
  update_rows cond set t t.

(** [DELETE ... WHERE ...]. *)
Definition delete (cond : R -> bool) (t : list R) : list R :=
  List.filter (fun r => negb (cond r)) t.

End Table.

(** [PRIMARY KEY (id, published_at)] of [news_articles]; the other two
    tables have [id] as primary key. *)
Definition article_key (r : news_article) : uuid * timestamp :=
  (id r, published_at r).

Definition article_key_eqb (k1 k2 : uuid * timestamp) : bool :=
  (N.eqb (fst k1) (fst k2) && Z.eqb (snd k1) (snd k2))%bool.

Record database : Type := {
  news_articles : list news_article;
  sentiment_analyses : list sentiment_analysis;
  market_impacts : list market_impact
}.

Definition empty : database :=
  {| news_articles := []; sentiment_analyses := []; market_impacts := [] |}.

Inductive statement : Type :=
| InsertArticle (r : news_article)
| UpdateArticle (cond : news_article -> bool)
                (set : news_article -> news_article)
| DeleteArticle (cond : news_article -> bool)
| InsertAnalysis (r : sentiment_analysis)
| InsertImpact (r : market_impact)
| UpdateImpact (cond : market_impact -> bool)
               (set : market_impact -> market_impact)
| DeleteImpact (cond : market_impact -> bool).

Definition with_articles (db : database) (t : list news_article) : database :=
  {| news_articles := t;
     sentiment_analyses := sentiment_analyses db;
     market_impacts := market_impacts db |}.

Definition with_analyses (db : database) (t : list sentiment_analysis)
  : database :=
  {| news_articles := news_articles db;
     sentiment_analyses := t;
     market_impacts := market_impacts db |}.

Definition with_impacts (db : database) (t : list market_impact) : database :=
  {| news_articles := news_articles db;
     sentiment_analyses := sentiment_analyses db;
     market_impacts := t |}.

(** One statement against the schema; [None] when a constraint rejects
    it, in which case nothing is stored. *)
Definition exec (st : statement) (db : database) : option database :=
  match st with
  | InsertArticle r =>
      option_map (with_articles db)
        (insert article_key article_key_eqb news_article_stored r
                (news_articles db))
  | UpdateArticle cond set =>
      option_map (with_articles db)
        (update article_key article_key_eqb news_article_stored cond set
                (news_articles db))
  | DeleteArticle cond =>
      Some (with_articles db (delete cond (news_articles db)))
  | InsertAnalysis r =>
      option_map (with_analyses db)
        (insert sa_id N.eqb sentiment_analysis_stored r (sentiment_analyses db))
  | InsertImpact r =>
      option_map (with_impacts db)
        (insert mi_id N.eqb market_impact_stored r (market_impacts db))
  | UpdateImpact cond set =>
      option_map (with_impacts db)
        (update mi_id N.eqb market_impact_stored cond set (market_impacts db))
  | DeleteImpact cond =>
      Some (with_impacts db (delete cond (market_impacts db)))
  end.

(** A sequence of statements, each one committed before the next. *)
Fixpoint run (sts : list statement) (db : database) : option database :=
  match sts with
  | [] => Some db
  | st :: rest =>
      match exec st db with
      | Some db' => run rest db'
      | None => None
      end
  end.

(** States of the store: those some sequence of accepted statements
    produces from the empty database. *)
Definition reachable (db : database) : Prop :=
  exists sts, run sts empty = Some db.

(** *** The hypertable

    [create_hypertable('news_articles', 'published_at')] partitions the
    table into chunks by the time column. The script sets no chunk
    interval, so the chunk an instant falls into is a parameter. *)
Section Hypertable.

Variable chunk_index : timestamp -> Z.

Definition chunk_of (r : news_article) : Z :=
  chunk_index (published_at r).

Definition chunk (c : Z) (t : list news_article) : list news_article :=
  List.filter (fun r => Z.eqb (chunk_of r) c) t.

End Hypertable.

(** *** Properties of stored rows the specification speaks of *)





(** Both prices present, or both [NULL]. *)
Definition prices_paired (r : market_impact) : bool :=
  match price_before r, price_after r with
  | Some _, Some _ => true
  | None, None => true
  | _, _ => false
  end.

Definition impacts_paired (db : database) : bool :=
  forallb prices_paired (market_impacts db).

(** Rows at distinct positions of a table differ in [f]. *)
Definition unique_on {R A} (f : R -> A) (t : list R) : Prop :=
  forall i j r1 r2,
    nth_error t i = Some r1 -> nth_error t j = Some r2 ->
    f r1 = f r2 -> i = j.

End Schema.

(* ===================================================================== *)
(** ** Ingestion and deduplication (backend, specification section 4.1) *)
(* ===================================================================== *)

Module Ingest.
Import Schema.

(** Modelled from the spec: what the news provider yields,
    [RawArticle{title, url, body, source, author?, published_at,
    ticker?}] (section 6); the fetcher is not among the sources. *)
Record RawArticle : Type := {
  raw_title : string;
  raw_url : string;
  raw_body : string;
  raw_source : string;
  raw_author : option string;
  raw_published_at : timestamp;
  raw_ticker : option string
}.

Section Dedup.

(** URL and title normalisation and the fallback hash are not fixed by
    the specification. *)
Variable normalize : string -> string.
Variable hash : string -> string -> Z -> string.

(** Timestamps count microseconds; a day has 86400000000 of them. *)
Definition day (t : timestamp) : Z := (t / 86400000000)%Z.

(** Modelled from the spec: the dedup key of section 4.1, which is the
    normalised URL when a URL is present and otherwise a hash of the
    normalised title, the source and the publication day. The backend
    function that computes it is not among the sources. *)
Definition dedup_key (title url source : string) (published : timestamp)
  : string :=
  if Js.truthyString url then normalize url
  else hash (normalize title) source (day published).

(** Modelled from the spec: the dedup key of a stored row and of a raw
    article. *)
Definition row_key (r : news_article) : string :=
  dedup_key (title r) (url r) (source r) (published_at r).

(** Modelled from the spec: the dedup key of a raw article. *)
Definition raw_key (a : RawArticle) : string :=
  dedup_key (raw_title a) (raw_url a) (raw_source a) (raw_published_at a).

(** Modelled from the spec: the row written for an accepted raw article
    (unscored, not processed, not archived); [new_id] is the value
    [gen_random_uuid()] draws for it. *)
Definition to_row (new_id : uuid) (a : RawArticle) : news_article :=
  {| id := new_id;
     published_at := raw_published_at a;
     title := raw_title a;
     content := raw_body a;
     summary := None;
     url := raw_url a;
     source := raw_source a;
     author := raw_author a;
     ticker_symbol := raw_ticker a;
     company_name := None;
     sector := None;
     industry := None;
     created_at := None;
     updated_at := None;
     sentiment_score := None;
     sentiment_label := None;
     confidence_score := None;
     sentiment_vector := None;
     content_vector := None;
     keywords := None;
     entities := None;
     market_impact_score := None;
     is_processed := Some false;
     is_archived := Some false;
     raw_data := None |}.

(** Number of stored articles with dedup key [k]. *)
Definition copies (k : string) (db : database) : nat :=
  List.length
    (List.filter (fun r => String.eqb (row_key r) k) (news_articles db)).

End Dedup.

End Ingest.

(* ===================================================================== *)
(** ** Ensemble scoring (backend, specification section 4.2) *)
(* ===================================================================== *)

Module Ensemble.

Inductive Label : Type :=
| strongly_negative
| negative
| neutral
| positive
| strongly_positive.

(** Modelled from the spec: the label derivation of section 4.2 (score
    >= 0.5 strongly_positive; 0.1 <= score < 0.5 positive; -0.1 < score <
    0.1 neutral; -0.5 < score <= -0.1 negative; score <= -0.5
    strongly_negative). The backend function is not among the sources. *)
Definition derive_label (s : Q) : Label :=
  if Qle_bool (1 # 2) s then strongly_positive
  else if Qle_bool (1 # 10) s then positive
  else if Js.Qlt_bool (-1 # 10) s then neutral
  else if Js.Qlt_bool (-1 # 2) s then negative
  else strongly_negative.

(** The three display groups of the five labels, as [getSentimentIcon]
    and [getSentimentColor] of the news feed group them. *)
Definition display (l : Label) : string :=
  match l with
  | strongly_positive | positive => "Positive"
  | strongly_negative | negative => "Negative"
  | neutral => "Neutral"
  end.

(** Modelled from the spec: the output of one ensemble member, an
    external classifier: [classify(text) -> (score, confidence)]
    (section 6). *)
Record MemberResult : Type := {
  score : Q;
  confidence : Q
}.

(** Modelled from the spec: the result of the scorer, which is not
    among the sources: [EnsembleResult{score, label, confidence}]
    (section 4.2). *)
Record EnsembleResult : Type := {
  final_score : Q;
  final_label : Label;
  final_confidence : Q
}.


(** Modelled from the spec: the weight of a member, its confidence
    re-normalised so that the two weights sum to 1. *)
Definition weight (m other : MemberResult) : Q :=
  (confidence m / (confidence m + confidence other))%Q.

(** Modelled from the spec: the final score when both members succeed,
    "confidence-weighted average of member scores (each member's
    confidence is its own weight, re-normalized to sum to 1)". *)
Definition combined_score (a b : MemberResult) : Q :=
  (weight a b * score a + weight b a * score b)%Q.

Section Policy.

(** What the specification leaves open for the scorer, which is not
    among the sources: the disagreement penalty per unit of
    [|score_a - score_b|], the confidence ceiling of the single-member
    fallback, and the weights of the "weighted average of member
    confidences". [confidence_weight a b] is the weight of the first
    member in that average, the second member having the rest. *)
Variable penalty : Q.
Variable ceiling : Q.
Variable confidence_weight : MemberResult -> MemberResult -> Q.

(** Modelled from the spec: the disagreement [|score_a - score_b|]. *)
Definition disagreement (a b : MemberResult) : Q :=
  Qabs (score a - score b).

(** Modelled from the spec: the "weighted average of member
    confidences" of the absent scorer, under the weights above. *)
Definition weighted_confidence (a b : MemberResult) : Q :=
  (confidence_weight a b * confidence a +
   (1 - confidence_weight a b) * confidence b)%Q.

(** Modelled from the spec: "then scaled down by a fixed disagreement
    penalty proportional to |score_a - score_b|". *)
Definition combined_confidence (a b : MemberResult) : Q :=
  (weighted_confidence a b * (1 - penalty * disagreement a b))%Q.

(** Modelled from the spec: the combination rule of section 4.2. With one
    member its result is used with the confidence capped at the ceiling;
    with none the article stays unscored. *)
Definition combine (ra rb : option MemberResult) : option EnsembleResult :=
  match ra, rb with
  | Some a, Some b =>
      Some {| final_score := combined_score a b;
              final_label := derive_label (combined_score a b);
              final_confidence := combined_confidence a b |}
  | Some m, None | None, Some m =>
      Some {| final_score := score m;
              final_label := derive_label (score m);
              final_confidence := Qmin (confidence m) ceiling |}
  | None, None => None
  end.


End Policy.


(** Modelled from the spec: the name under which the absent scorer
    stores a label (the enumeration of section 3). *)
Definition label_name (l : Label) : string :=
  match l with
  | strongly_negative => "strongly_negative"
  | negative => "negative"
  | neutral => "neutral"
  | positive => "positive"
  | strongly_positive => "strongly_positive"
  end.

End Ensemble.

(* ===================================================================== *)
(** ** The write paths of the pipeline (backend, specification sections
       4.1 to 4.5 and 5) *)
(* ===================================================================== *)

Module Pipeline.
Import Schema.

(** The backend that ingests, scores, embeds and correlates articles is
    not among the sources. Its operations are modelled from the
    specification as far as they write to the store, each one as a
    transaction of statements against the schema above. *)

(** Modelled from the spec: a write of the backend, which is not among
    the sources, as a transaction: "partial writes are not permitted"
    (section 5), so all of its statements are committed, or none. *)
Definition transaction (sts : list statement) (db : database) : database :=
  match run sts db with
  | Some db' => db'
  | None => db
  end.

(** Modelled from the spec: the condition [WHERE id = ...] by which
    the backend, not among the sources, addresses an article (the fact
    tables are "referencing Article by id", section 6). *)
Definition is_article (i : uuid) (x : news_article) : bool :=
  N.eqb (id x) i.

(** *** Ingestion (section 4.1) *)

(** Modelled from the spec: the store effect of ingesting one raw
    article (section 4.1; [ingest] is not among the sources). A raw
    article without URL or title is rejected; otherwise its row is
    written under the identifier drawn for it, the storage layer being
    the guard against duplicates (section 5): a refused INSERT stores
    nothing. *)
Definition ingest_one (a : Ingest.RawArticle) (new_id : uuid) (db : database)
  : database :=
  if Js.truthyString (Ingest.raw_url a) && Js.truthyString (Ingest.raw_title a)
  then transaction [InsertArticle (Ingest.to_row new_id a)] db
  else db.

(** *** Scoring (section 4.2) *)

(** Modelled from the spec: one run of the scorer of section 4.2, which
    is not among the sources: the article, what each of the two members
    returned ([None]: the member failed), the model identifiers, and the
    identifiers drawn for the analysis records. *)
Record ScoringJob : Type := {
  scored_article : uuid;
  local_result : option Ensemble.MemberResult;
  hosted_result : option Ensemble.MemberResult;
  local_model : string;
  hosted_model : string;
  local_record : uuid;
  hosted_record : uuid;
  final_record : uuid
}.

(** Modelled from the spec: a SentimentAnalysis record as the scorer,
    not among the sources, writes it (article reference, model
    identifier, analysis type, score, label, confidence; section 3). *)
Definition analysis_record (i article : uuid) (model analysis_type : string)
  (s : Q) (l : Ensemble.Label) (c : Q) : sentiment_analysis :=
  {| sa_id := i;
     sa_article_id := article;
     sa_model_name := model;
     sa_analysis_type := analysis_type;
     sa_sentiment_score := Finite s;
     sa_sentiment_label := Ensemble.label_name l;
     sa_confidence_score := Some (Finite c);
     sa_embedding_vector := None;
     sa_processing_time_ms := None;
     sa_created_at := None;
     sa_analysis_data := None |}.

(** Modelled from the spec: the member records of the scorer, not
    among the sources: "one SentimentAnalysis record per member
    attempt"; a member that failed has no score to record. *)
Definition member_record (i article : uuid) (model : string)
  (r : option Ensemble.MemberResult) : list statement :=
  match r with
  | Some m =>
      [InsertAnalysis
         (analysis_record i article model "ensemble-member"
            (Ensemble.score m) (Ensemble.derive_label (Ensemble.score m))
            (Ensemble.confidence m))]
  | None => []
  end.

(** Modelled from the spec: the assignment by which the scorer, not
    among the sources, "updates the Article's sentiment fields and sets
    is_processed = true": [SET sentiment_score = ..., sentiment_label =
    ..., confidence_score = ..., is_processed = TRUE]. *)
Definition set_sentiment (e : Ensemble.EnsembleResult) (x : news_article)
  : news_article :=
  {| id := id x;
     published_at := published_at x;
     title := title x;
     content := content x;
     summary := summary x;
     url := url x;
     source := source x;
     author := author x;
     ticker_symbol := ticker_symbol x;
     company_name := company_name x;
     sector := sector x;
     industry := industry x;
     created_at := created_at x;
     updated_at := updated_at x;
     sentiment_score := Some (Finite (Ensemble.final_score e));
     sentiment_label := Some (Ensemble.label_name (Ensemble.final_label e));
     confidence_score := Some (Finite (Ensemble.final_confidence e));
     sentiment_vector := sentiment_vector x;
     content_vector := content_vector x;
     keywords := keywords x;
     entities := entities x;
     market_impact_score := market_impact_score x;
     is_processed := Some true;
     is_archived := is_archived x;
     raw_data := raw_data x |}.

Section Scoring.

Variables penalty ceiling : Q.
Variable confidence_weight
  : Ensemble.MemberResult -> Ensemble.MemberResult -> Q.

(** Modelled from the spec: the side effect of [score] (section 4.2),
    which is not among the sources. It "writes one SentimentAnalysis
    record per member attempt plus one ensemble-final record; updates
    the Article's sentiment fields and sets is_processed = true only on
    a non-degenerate success"; when both members fail nothing is written
    and the article stays unscored. *)
Definition score_statements (job : ScoringJob) : list statement :=
  match Ensemble.combine penalty ceiling confidence_weight
          (local_result job) (hosted_result job) with
  | Some e =>
      member_record (local_record job) (scored_article job) (local_model job)
        (local_result job) ++
      member_record (hosted_record job) (scored_article job) (hosted_model job)
        (hosted_result job) ++
      [InsertAnalysis
         (analysis_record (final_record job) (scored_article job) "ensemble"
            "ensemble-final" (Ensemble.final_score e) (Ensemble.final_label e)
            (Ensemble.final_confidence e));
       UpdateArticle (is_article (scored_article job)) (set_sentiment e)]
  | None => []
  end.

(** Modelled from the spec: a scoring job of the absent scorer, run to
    its commit. *)
Definition score (job : ScoringJob) (db : database) : database :=
  transaction (score_statements job) db.

End Scoring.

(** *** Embedding (section 4.3) *)

(** Modelled from the spec: the assignment of the embedding pass, which
    is not among the sources: [SET content_vector = ...,
    sentiment_vector = ...]. *)
Definition set_vectors (cv sv : vector) (x : news_article) : news_article :=
  {| id := id x;
     published_at := published_at x;
     title := title x;
     content := content x;
     summary := summary x;
     url := url x;
     source := source x;
     author := author x;
     ticker_symbol := ticker_symbol x;
     company_name := company_name x;
     sector := sector x;
     industry := industry x;
     created_at := created_at x;
     updated_at := updated_at x;
     sentiment_score := sentiment_score x;
     sentiment_label := sentiment_label x;
     confidence_score := confidence_score x;
     sentiment_vector := Some sv;
     content_vector := Some cv;
     keywords := keywords x;
     entities := entities x;
     market_impact_score := market_impact_score x;
     is_processed := is_processed x;
     is_archived := is_archived x;
     raw_data := raw_data x |}.

(** Modelled from the spec: the embedding pass (section 4.3), which is
    not among the sources: the two vectors [embed] returns are stored
    with the article. *)
Definition embed (article : uuid) (cv sv : vector) (db : database)
  : database :=
  transaction [UpdateArticle (is_article article) (set_vectors cv sv)] db.

(** *** Retention (section 3) *)

(** Modelled from the spec: the assignment of the retention policy,
    which is not among the sources: [SET is_archived = TRUE]. *)
Definition set_archived (x : news_article) : news_article :=
  {| id := id x;
     published_at := published_at x;
     title := title x;
     content := content x;
     summary := summary x;
     url := url x;
     source := source x;
     author := author x;
     ticker_symbol := ticker_symbol x;
     company_name := company_name x;
     sector := sector x;
     industry := industry x;
     created_at := created_at x;
     updated_at := updated_at x;
     sentiment_score := sentiment_score x;
     sentiment_label := sentiment_label x;
     confidence_score := confidence_score x;
     sentiment_vector := sentiment_vector x;
     content_vector := content_vector x;
     keywords := keywords x;
     entities := entities x;
     market_impact_score := market_impact_score x;
     is_processed := is_processed x;
     is_archived := Some true;
     raw_data := raw_data x |}.

(** Modelled from the spec: the retention policy (section 3), which is
    not among the sources: archiving flags the article and deletes
    nothing. *)
Definition archive (article : uuid) (db : database) : database :=
  transaction [UpdateArticle (is_article article) set_archived] db.

(** *** Market impact correlation (section 4.5) *)

(** Modelled from the spec: what the price feed, an external provider,
    returns: [price_at(ticker, timestamp) -> (price, volume)]
    (section 6). *)
Record Observation : Type := {
  price : Q;
  volume : Q
}.

(** Modelled from the spec: one run of the correlator of section 4.5,
    which is not among the sources: the arguments of
    [correlate(article, ticker, window_hours)], the time of the
    measurement and the identifier drawn for the record. *)
Record CorrelationJob : Type := {
  article : news_article;
  ticker : string;
  window_hours : Z;
  measured_at : timestamp;
  impact_record : uuid
}.

(** Modelled from the spec: the ways [correlate], not among the
    sources, fails (sections 4.5 and 7). *)
Inductive CorrelationError : Type :=
| PreconditionFailed
| InsufficientPriceData.

(** Modelled from the spec: the length of the window of the absent
    correlator. Timestamps count microseconds; an hour has 3600000000 of
    them. *)
Definition hours (n : Z) : Z := (n * 3600000000)%Z.

(** Modelled from the spec: the "percent price change and percent
    volume change over the window" of the absent correlator, from
    [before] to [after] (a price or volume observed is positive). *)
Definition percent_change (before after : Q) : Q :=
  ((after - before) / before * 100)%Q.

(** Modelled from the spec: the identity of an impact record for the
    absent correlator, "(article, ticker, window_hours)": [x] has the
    same as the record [m]. *)
Definition same_window (m x : market_impact) : bool :=
  N.eqb (mi_article_id x) (mi_article_id m) &&
  String.eqb (mi_ticker_symbol x) (mi_ticker_symbol m) &&
  Z.eqb (impact_window_hours x) (impact_window_hours m).

Section Correlation.

(** The price feed, [price_at(ticker, timestamp)]: the nearest
    observation within the tolerance, [None] when there is none. *)
Variable price_at : string -> timestamp -> option Observation.

(** "The article must ... carry a resolvable ticker." *)
Variable resolvable : news_article -> string -> bool.

(** The correlation coefficient and the impact score, "a fixed weighted
    formula" of the sentiment score and of the percent price change
    which the specification does not spell out. *)
Variable correlation : Q -> Q -> Q.
Variable impact : Q -> Q -> Q.

(** Modelled from the spec: [correlate] (section 4.5), which is not
    among the sources. The article has to be processed, scored and to
    carry a resolvable ticker; a missing price at either end of the
    window yields [InsufficientPriceData]; the record otherwise carries
    both prices and what is computed from them. *)
Definition correlate (job : CorrelationJob)
  : CorrelationError + market_impact :=
  match is_processed (article job), sentiment_score (article job) with
  | Some true, Some (Finite s) =>
      if resolvable (article job) (ticker job) then
        match price_at (ticker job) (published_at (article job)),
              price_at (ticker job)
                (published_at (article job) + hours (window_hours job))%Z
        with
        | Some before, Some after =>
            let change := percent_change (price before) (price after) in
            inr {| mi_id := impact_record job;
                   mi_article_id := id (article job);
                   mi_ticker_symbol := ticker job;
                   price_before := Some (Finite (price before));
                   price_after := Some (Finite (price after));
                   price_change_percent := Some (Finite change);
                   volume_change_percent :=
                     Some (Finite (percent_change (volume before)
                                                  (volume after)));
                   impact_window_hours := window_hours job;
                   measurement_time := measured_at job;
                   sentiment_price_correlation :=
                     Some (Finite (correlation s change));
                   impact_score := Some (Finite (impact s change));
                   mi_created_at := None;
                   mi_analysis_data := None |}
        | _, _ => inl InsufficientPriceData
        end
      else inl PreconditionFailed
  | _, _ => inl PreconditionFailed
  end.

(** Modelled from the spec: the commit of the absent correlator. A
    completed job commits its record, and "recomputing ... overwrites
    rather than duplicates the prior record for that exact window"; a
    job that fails commits nothing. *)
Definition correlate_and_commit (job : CorrelationJob) (db : database)
  : database :=
  match correlate job with
  | inr m => transaction [DeleteImpact (same_window m); InsertImpact m] db
  | inl _ => db
  end.

End Correlation.

(** *** Operations *)

(** Modelled from the spec: the operations of the backend, which is not
    among the sources, that write to the store; [Abandoned] is a job
    given up before its commit. *)
Inductive operation : Type :=
| Ingest (a : Ingest.RawArticle) (new_id : uuid)
| Score (job : ScoringJob)
| Embed (article : uuid) (content_vector sentiment_vector : vector)
| Correlate (job : CorrelationJob)
| Archive (article : uuid)
| Abandoned (op : operation).

Section Operations.

Variables penalty ceiling : Q.
Variable confidence_weight
  : Ensemble.MemberResult -> Ensemble.MemberResult -> Q.
Variable price_at : string -> timestamp -> option Observation.
Variable resolvable : news_article -> string -> bool.
Variables correlation impact : Q -> Q -> Q.

(** Modelled from the spec: one operation of the absent backend
    against the store. A job abandoned mid-flight "must leave the
    Article in its last-committed state": it commits nothing. *)
Definition perform (op : operation) (db : database) : database :=
  match op with
  | Ingest a new_id => ingest_one a new_id db
  | Score job => score penalty ceiling confidence_weight job db
  | Embed i cv sv => embed i cv sv db
  | Correlate job =>
      correlate_and_commit price_at resolvable correlation impact job db
  | Archive i => archive i db
  | Abandoned _ => db
  end.

(** Modelled from the spec: a sequence of operations of the absent
    backend, oldest first, each committed before the next. *)
Definition perform_all (ops : list operation) (db : database) : database :=
  fold_left (fun d op => perform op d) ops db.

End Operations.


End Pipeline.

(* ===================================================================== *)
(** ** Further parts of the components *)
(* ===================================================================== *)

(** *** Styling of a sentiment label on the article cards *)

Module ArticleCard.

Inductive Icon : Type := TrendingUp | TrendingDown | Minus.

(** [getSentimentIcon(sentiment)] of NewsFeed.jsx and of the archive (the
    two components carry the same text); a [switch] compares with
    [===]. *)
Definition getSentimentIcon (sentiment : option string) : Icon :=
  if Js.strictEq sentiment "positive" then TrendingUp
  else if Js.strictEq sentiment "negative" then TrendingDown
  else Minus.

(** [getSentimentColor(sentiment)] of NewsFeed.jsx and of the archive. *)
Definition getSentimentColor (sentiment : option string) : string :=
  if Js.strictEq sentiment "positive"
  then "bg-green-100 text-green-800 border-green-200"
  else if Js.strictEq sentiment "negative"
  then "bg-red-100 text-red-800 border-red-200"
  else "bg-gray-100 text-gray-800 border-gray-200".

End ArticleCard.

(** *** The news feed revision with dark mode and the strong labels *)

Module NewsFeedDark.
Import NewsApi.

Record State : Type := {
  articles : list Article;
  filter : string;
  tickerFilter : string
}.

(** [filteredArticles]: the predicate is the one of NewsFeed.jsx. *)
Definition filteredArticles (s : State) : list Article :=
  NewsFeed.filteredArticles (filter s) (tickerFilter s) (articles s).

(** [handleClearFilters], the listener of the window event
    ['clearFilters']; the "Clear filters" button runs the same two
    updates. *)
Definition handleClearFilters (s : State) : State :=
  {| articles := articles s; filter := "all"; tickerFilter := EmptyString |}.

(** [getSentimentIcon(sentiment)]. *)
Definition getSentimentIcon (sentiment : option string) : ArticleCard.Icon :=
  if Js.strictEq sentiment "positive" || Js.strictEq sentiment "strongly_positive"
  then ArticleCard.TrendingUp
  else if Js.strictEq sentiment "negative" ||
          Js.strictEq sentiment "strongly_negative"
  then ArticleCard.TrendingDown
  else ArticleCard.Minus.

(** [getSentimentColor(sentiment)]. *)
Definition getSentimentColor (sentiment : option string) : string :=
  if Js.strictEq sentiment "positive" || Js.strictEq sentiment "strongly_positive"
  then "bg-green-100 text-green-800 border-green-200"
  else if Js.strictEq sentiment "negative" ||
          Js.strictEq sentiment "strongly_negative"
  then "bg-red-100 text-red-800 border-red-200"
  else "bg-gray-100 text-gray-800 border-gray-200".

(** [getSentimentColorDark(sentiment)] of [ArticleCard]. *)
Definition getSentimentColorDark (sentiment : option string) : string :=
  if Js.strictEq sentiment "positive" || Js.strictEq sentiment "strongly_positive"
  then "bg-green-100 text-green-800 border-green-200 dark:bg-green-900/20 dark:text-green-400 dark:border-green-800"
  else if Js.strictEq sentiment "negative" ||
          Js.strictEq sentiment "strongly_negative"
  then "bg-red-100 text-red-800 border-red-200 dark:bg-red-900/20 dark:text-red-400 dark:border-red-800"
  else "bg-gray-100 text-gray-800 border-gray-200 dark:bg-gray-800 dark:text-gray-300 dark:border-gray-600".

End NewsFeedDark.

(** *** Keyboard shortcuts of the application shell *)

Module Shortcuts.

Record KeyEvent : Type := {
  ctrlKey : bool;
  metaKey : bool;
  key : string
}.

Inductive Effect : Type :=
| PreventDefault
| ToggleTheme
| Reload
| DispatchClearFilters.

(** [handleKeyDown(event)], given [window.location.pathname]: the
    effects it performs, in order. *)
Definition handleKeyDown (pathname : string) (event : KeyEvent) : list Effect :=
  ((if (ctrlKey event || metaKey event) && (key event =? "d")
    then [PreventDefault; ToggleTheme] else []) ++
   (if (ctrlKey event || metaKey event) && (key event =? "r")
    then [PreventDefault; Reload] else []) ++
   (if (key event =? "Escape") && (pathname =? "/")
    then [DispatchClearFilters] else []))%list.

(** The news feed's listener runs for each dispatched ['clearFilters']. *)
Definition deliver (effects : list Effect) (s : NewsFeedDark.State)
  : NewsFeedDark.State :=
  fold_left
    (fun st e =>
       match e with
       | DispatchClearFilters => NewsFeedDark.handleClearFilters st
       | _ => st
       end) effects s.

End Shortcuts.

(** *** Polling of the dashboard statistics *)

Module DashboardPolling.

(** The [stats] state after the outcomes of successive [fetchStats]
    calls (the first call and one per interval tick), oldest first. *)
Definition poll (responses : list (option Dashboard.Stats))
  (stats : Dashboard.Stats) : Dashboard.Stats :=
  fold_left (fun st r => Dashboard.fetchStats r st) responses stats.

End DashboardPolling.

(* ===================================================================== *)
(** ** Derived notions and sample data *)
(* ===================================================================== *)

(** The view of the panel on no data: zero counts, neutral trend, no chart
    points, all-zero slices. *)
Definition zeroView : SentimentPanel.PanelView :=
  {| SentimentPanel.shown_total := 0;
     SentimentPanel.shown_average := 0;
     SentimentPanel.shown_trend :=
       {| SentimentPanel.direction := "neutral";
          SentimentPanel.color := "text-gray-600";
          SentimentPanel.icon := SentimentPanel.Activity |};
     SentimentPanel.chartData := [];
     SentimentPanel.pieData := SentimentPanel.pie 0 0 0 |}.

(** [a] may stand before [b] in a newest-first list. *)
Definition newer_or_equal (a b : NewsApi.Article) : Prop :=
  (NewsApi.published_at b <= NewsApi.published_at a)%Z.

(** The archive showing the mock data, on page 2 of 3. *)
Definition page2of3 : ArchiveLookup.State :=
  {| ArchiveLookup.articles := ArchiveLookup.getMockArchiveData;
     ArchiveLookup.error := Some "Failed to search articles";
     ArchiveLookup.currentPage := 2;
     ArchiveLookup.totalPages := 3 |}.

(** The search form with the query "earnings" and nothing else set. *)
Definition earnings_query : ArchiveLookup.Filters :=
  {| ArchiveLookup.searchQuery := "earnings";
     ArchiveLookup.selectedTicker := EmptyString;
     ArchiveLookup.dateRange := "7d";
     ArchiveLookup.sentimentFilter := "all";
     ArchiveLookup.sortBy := "date" |}.

(** A response of fifteen articles (the request asks for at most 20). *)
Definition fifteen_articles : list NewsApi.Article :=
  (ArchiveLookup.getMockArchiveData ++ ArchiveLookup.getMockArchiveData ++
   ArchiveLookup.getMockArchiveData)%list.

(** No two rows of a table share its primary key. *)
Definition keys_unique (db : Schema.database) : Prop :=
  NoDup (map Schema.article_key (Schema.news_articles db)) /\
  NoDup (map Schema.sa_id (Schema.sentiment_analyses db)) /\
  NoDup (map Schema.mi_id (Schema.market_impacts db)).

(** Sample rows, after the mock data of the news feed. *)
Definition apple_url : string := "https://example.com/apple-earnings".

Definition sample_article (i : Schema.uuid) (t : Schema.timestamp)
  (u : string) (s c : option Schema.float8) : Schema.news_article :=
  {| Schema.id := i;
     Schema.published_at := t;
     Schema.title := "Apple Reports Strong Q4 Earnings, Exceeds Expectations";
     Schema.content := "Apple Inc. reported quarterly earnings.";
     Schema.summary := None;
     Schema.url := u;
     Schema.source := "Reuters";
     Schema.author := Some "John Smith";
     Schema.ticker_symbol := Some "AAPL";
     Schema.company_name := Some "Apple Inc.";
     Schema.sector := None;
     Schema.industry := None;
     Schema.created_at := None;
     Schema.updated_at := None;
     Schema.sentiment_score := s;
     Schema.sentiment_label := None;
     Schema.confidence_score := c;
     Schema.sentiment_vector := None;
     Schema.content_vector := None;
     Schema.keywords := None;
     Schema.entities := None;
     Schema.market_impact_score := None;
     Schema.is_processed := Some false;
     Schema.is_archived := Some false;
     Schema.raw_data := None |}.

(** Two rows for the same URL and instant, with the identifiers 1 and 2. *)
Definition two_articles : Schema.database :=
  {| Schema.news_articles :=
       [sample_article 1%N 1702650600000000%Z apple_url None None;
        sample_article 2%N 1702650600000000%Z apple_url None None];
     Schema.sentiment_analyses := [];
     Schema.market_impacts := [] |}.

(** The same article as the provider delivers it. *)
Definition apple_raw : Ingest.RawArticle :=
  {| Ingest.raw_title := "Apple Reports Strong Q4 Earnings, Exceeds Expectations";
     Ingest.raw_url := apple_url;
     Ingest.raw_body := "Apple Inc. reported quarterly earnings.";
     Ingest.raw_source := "Reuters";
     Ingest.raw_author := Some "John Smith";
     Ingest.raw_published_at := 1702650600000000%Z;
     Ingest.raw_ticker := Some "AAPL" |}.



(** [a] may stand before [b] in a list ordered by descending score. *)
Definition higher_or_equal (a b : NewsApi.Article) : Prop :=
  (Js.orZero (NewsApi.sentiment_score b)
   <= Js.orZero (NewsApi.sentiment_score a))%Q.

(** Every stored row passes the column checks of its table. *)
Definition rows_ok (db : Schema.database) : Prop :=
  forallb Schema.news_article_ok (Schema.news_articles db) = true /\
  forallb Schema.sentiment_analysis_ok (Schema.sentiment_analyses db) = true /\
  forallb Schema.market_impact_ok (Schema.market_impacts db) = true.

(** The condition [WHERE id = ... AND published_at = ...] selecting the
    row with the primary key of [r]. *)
Definition has_key_of (r : Schema.news_article) (x : Schema.news_article)
  : bool :=
  Schema.article_key_eqb (Schema.article_key x) (Schema.article_key r).

(** An analysis row for article 7, which no article table need hold. *)
Definition sample_analysis (i : Schema.uuid) : Schema.sentiment_analysis :=
  {| Schema.sa_id := i;
     Schema.sa_article_id := 7%N;
     Schema.sa_model_name := "ProsusAI/finbert";
     Schema.sa_analysis_type := "ensemble-member";
     Schema.sa_sentiment_score := Schema.Finite (8 # 10);
     Schema.sa_sentiment_label := "positive";
     Schema.sa_confidence_score := Some (Schema.Finite (92 # 100));
     Schema.sa_embedding_vector := None;
     Schema.sa_processing_time_ms := Some 50%Z;
     Schema.sa_created_at := None;
     Schema.sa_analysis_data := None |}.

(** The store after the first ingestion of the sample article. *)
Definition one_article : Schema.database :=
  {| Schema.news_articles := [Ingest.to_row 1%N apple_raw];
     Schema.sentiment_analyses := [];
     Schema.market_impacts := [] |}.


(** The impact rows a statement writes have both prices or neither, as
    far as the rows it rewrites had. *)
Definition writes_paired (st : Schema.statement) : Prop :=
  match st with
  | Schema.InsertImpact r => Schema.prices_paired r = true
  | Schema.UpdateImpact cond set =>
      forall r, cond r = true -> Schema.prices_paired r = true ->
                Schema.prices_paired (set r) = true
  | _ => True
  end.

(** A policy: penalty 1/4 per unit of disagreement, ceiling 0.9, and the
    two confidences averaged with equal weights. *)
Definition equal_weights (a b : Ensemble.MemberResult) : Q := 1 # 2.


(** A price feed that quotes 150 up to the publication of the sample
    article and 157 afterwards, and a correlation job over a 24 hour
    window on the sample article once scored. *)
Definition sample_feed (ticker : string) (t : Schema.timestamp)
  : option Pipeline.Observation :=
  if (t <=? 1702650600000000)%Z
  then Some {| Pipeline.price := 150; Pipeline.volume := 1000 |}
  else Some {| Pipeline.price := 157; Pipeline.volume := 1200 |}.

Definition sample_correlation : Pipeline.CorrelationJob :=
  {| Pipeline.article :=
       Pipeline.set_sentiment
         {| Ensemble.final_score := 7 # 10;
            Ensemble.final_label := Ensemble.strongly_positive;
            Ensemble.final_confidence := 8 # 10 |}
         (Ingest.to_row 1%N apple_raw);
     Pipeline.ticker := "AAPL";
     Pipeline.window_hours := 24%Z;
     Pipeline.measured_at := 1702737000000000%Z;
     Pipeline.impact_record := 21%N |}.

(** A comparison of strings by length, standing for a [localeCompare]. *)
Definition by_length (s1 s2 : string) : Q :=
  inject_Z (Z.of_nat (String.length s1) - Z.of_nat (String.length s2)).

(* ===================================================================== *)
(** * Properties *)
(* ===================================================================== *)

Unset Implicit Arguments.

(** ** Comparisons of the JavaScript layer *)

Lemma Qlt_bool_iff (x y : Q) : Js.Qlt_bool x y = true <-> (x < y)%Q.
Proof.
  unfold Js.Qlt_bool. rewrite negb_true_iff.
  split; intro H.
  - apply Qnot_le_lt. intro Hle. apply Qle_bool_iff in Hle. congruence.
  - destruct (Qle_bool y x) eqn:E; [|reflexivity].
    apply Qle_bool_iff in E. exfalso. apply (Qlt_not_le _ _ H E).
Qed.

Lemma Qlt_bool_false_iff (x y : Q) : Js.Qlt_bool x y = false <-> (y <= x)%Q.
Proof.
  unfold Js.Qlt_bool. rewrite negb_false_iff. apply Qle_bool_iff.
Qed.

Lemma Qle_bool_false_iff (x y : Q) : Qle_bool x y = false <-> (y < x)%Q.
Proof.
  rewrite <- Qlt_bool_iff. unfold Js.Qlt_bool.
  destruct (Qle_bool x y); simpl; intuition congruence.
Qed.

(** Case analysis on every rational comparison in the goal, leaving the
    order facts as hypotheses. *)
Ltac q_cases :=
  repeat match goal with
  | |- context [Js.Qlt_bool ?a ?b] =>
      let E := fresh "E" in
      destruct (Js.Qlt_bool a b) eqn:E;
      [apply Qlt_bool_iff in E | apply Qlt_bool_false_iff in E]
  | |- context [Qle_bool ?a ?b] =>
      let E := fresh "E" in
      destruct (Qle_bool a b) eqn:E;
      [apply Qle_bool_iff in E | apply Qle_bool_false_iff in E]
  end.

(** ** Sentiment classes of the dashboard *)

(** A missing or [null] score is shown as neutral. *)
Lemma sentimentBadge_absent :
  SentimentPanel.sentimentBadge Js.VUndefined = "Neutral" /\
  SentimentPanel.sentimentBadge Js.VNull = "Neutral".
Proof. split; reflexivity. Qed.

(** The trend arrow and the badge use the same cut-offs. *)
Lemma trend_follows_badge (v : Js.value) :
  SentimentPanel.direction (SentimentPanel.getSentimentTrend v) =
  (if Js.gt v (1 # 10) then "up"
   else if Js.lt v (-1 # 10) then "down" else "neutral").
Proof.
  unfold SentimentPanel.getSentimentTrend.
  destruct (Js.gt v (1 # 10)); [reflexivity|].
  destruct (Js.lt v (-1 # 10)); reflexivity.
Qed.

(** C1, as stated, fails on the code: the specification labels the score
    0.1 positive (and -0.1 negative, 0.5 strongly positive), while the
    classification the panel applies puts 0.1 and -0.1 in the neutral
    class and has no class beyond "Positive" for 0.5. *)
Lemma badge_boundary_counterexample :
  Ensemble.derive_label (1 # 10) = Ensemble.positive /\
  SentimentPanel.sentimentBadge (Js.VNum (1 # 10)) = "Neutral" /\
  SentimentPanel.sentimentBadge (Js.VNum (1 # 10)) <>
    Ensemble.display (Ensemble.derive_label (1 # 10)) /\
  Ensemble.derive_label (-1 # 10) = Ensemble.negative /\
  SentimentPanel.sentimentBadge (Js.VNum (-1 # 10)) = "Neutral" /\
  SentimentPanel.direction
    (SentimentPanel.getSentimentTrend (Js.VNum (1 # 10))) = "neutral" /\
  Ensemble.derive_label (1 # 2) = Ensemble.strongly_positive /\
  SentimentPanel.sentimentBadge (Js.VNum (1 # 2)) = "Positive".
Proof.
  repeat split; try reflexivity.
  vm_compute. discriminate.
Qed.

(** C1 (amended): for every score the panel's classification is
    three-way with strict cut-offs: Positive exactly when s > 0.1,
    Negative exactly when s < -0.1, Neutral exactly when -0.1 <= s <= 0.1;
    the trend direction uses the same cut-offs; and the class is the
    display group of the five-way threshold label whenever s is neither
    0.1 nor -0.1. *)
Theorem sentiment_badge_thresholds (s : Q) :
  (SentimentPanel.sentimentBadge (Js.VNum s) = "Positive" <-> (1 # 10 < s)%Q) /\
  (SentimentPanel.sentimentBadge (Js.VNum s) = "Negative" <-> (s < -1 # 10)%Q) /\
  (SentimentPanel.sentimentBadge (Js.VNum s) = "Neutral" <->
     (-1 # 10 <= s)%Q /\ (s <= 1 # 10)%Q) /\
  (SentimentPanel.direction (SentimentPanel.getSentimentTrend (Js.VNum s)) = "up"
     <-> (1 # 10 < s)%Q) /\
  (SentimentPanel.direction (SentimentPanel.getSentimentTrend (Js.VNum s)) = "down"
     <-> (s < -1 # 10)%Q) /\
  (~ (s == 1 # 10)%Q -> ~ (s == -1 # 10)%Q ->
   SentimentPanel.sentimentBadge (Js.VNum s) =
     Ensemble.display (Ensemble.derive_label s)).
Proof.
  rewrite trend_follows_badge.
  unfold SentimentPanel.sentimentBadge, Ensemble.derive_label, Js.gt, Js.lt.
  simpl Js.toNumber. cbv iota.
  q_cases; simpl; repeat split; intros;
    try discriminate; try reflexivity; try lra;
    try (exfalso; lra).
Qed.

Lemma sentiment_badge_thresholds_witness :
  SentimentPanel.sentimentBadge (Js.VNum (3 # 10)) =
    Ensemble.display (Ensemble.derive_label (3 # 10)).
Proof.
  apply (sentiment_badge_thresholds (3 # 10));
    intro H; vm_compute in H; discriminate.
Defined.

(** ** Views on an empty or partial dataset *)

(** [getSentimentSummary] never throws and always yields an object. *)
Lemma getSentimentSummary_defined (trendsData : option SentimentPanel.TrendsData) :
  exists s, SentimentPanel.getSentimentSummary trendsData = Js.Ok (Some s).
Proof.
  destruct trendsData as [[t [s|]]|]; simpl; eexists; reflexivity.
Qed.

(** [formatPieData] never throws and always yields the three slices. *)
Lemma formatPieData_defined (summary : option SentimentPanel.Summary) :
  exists p n u,
    SentimentPanel.formatPieData summary = Js.Ok (SentimentPanel.pie p n u).
Proof.
  destruct summary as [[t a [d|]]|]; simpl; do 3 eexists; reflexivity.
Qed.

Lemma formatChartData_length
  (f : string -> string) (g : Js.value -> string)
  (trends : option (list SentimentPanel.TrendItem)) :
  (List.length (SentimentPanel.formatChartData f g trends) <= 20)%nat.
Proof.
  unfold SentimentPanel.formatChartData.
  destruct trends as [[|x l]|].
  - simpl. lia.
  - rewrite length_map. apply firstn_le_length.
  - simpl. lia.
Qed.

(** C7: the statistics views tolerate every dataset. For every response
    (absent, without summary, without distribution, without counts) the
    panel computes its view without throwing; the summary helper returns
    the zeroed structure when the data or its summary is absent; the
    distribution helper returns the all-zero slices when the summary or
    its distribution is absent; the chart of no trends is empty; the
    whole view of an absent dataset is zero; and the dashboard statistics
    start zeroed with an empty ticker list and stay so when the request
    fails. *)
Theorem views_tolerate_empty_dataset
  (toLocaleTimeString : string -> string) (percentFixed1 : Js.value -> string) :
  (forall trendsData, exists view,
     SentimentPanel.renderPanel toLocaleTimeString percentFixed1 trendsData
       = Js.Ok view) /\
  SentimentPanel.getSentimentSummary None
    = Js.Ok (Some SentimentPanel.zeroSummary) /\
  (forall t,
     SentimentPanel.getSentimentSummary
       (Some {| SentimentPanel.trends := t; SentimentPanel.summary := None |})
     = Js.Ok (Some SentimentPanel.zeroSummary)) /\
  SentimentPanel.formatPieData None = Js.Ok (SentimentPanel.pie 0 0 0) /\
  (forall n a,
     SentimentPanel.formatPieData
       (Some {| SentimentPanel.total_articles := n;
                SentimentPanel.average_sentiment := a;
                SentimentPanel.sentiment_distribution := None |})
     = Js.Ok (SentimentPanel.pie 0 0 0)) /\
  SentimentPanel.formatPieData (Some SentimentPanel.zeroSummary)
    = Js.Ok (SentimentPanel.pie 0 0 0) /\
  SentimentPanel.formatChartData toLocaleTimeString percentFixed1 None = [] /\
  SentimentPanel.formatChartData toLocaleTimeString percentFixed1 (Some [])
    = [] /\
  SentimentPanel.renderPanel toLocaleTimeString percentFixed1 None
    = Js.Ok zeroView /\
  SentimentPanel.renderPanel toLocaleTimeString percentFixed1
    (Some {| SentimentPanel.trends := Some [];
             SentimentPanel.summary := None |}) = Js.Ok zeroView /\
  Dashboard.initialStats =
    {| Dashboard.total_articles := 0;
       Dashboard.processed_articles := 0;
       Dashboard.processing_rate := 0;
       Dashboard.average_sentiment := 0;
       Dashboard.top_tickers := [] |} /\
  Dashboard.fetchStats None Dashboard.initialStats = Dashboard.initialStats /\
  Dashboard.activeTickers Dashboard.initialStats = (0%nat, "N/A").
Proof.
  repeat split; try reflexivity.
  intros [[t [[n a [[p q u]|]]|]]|]; simpl; eexists; reflexivity.
Qed.

(** ** The news feed filter *)

Lemma matches_all (article : NewsApi.Article) :
  NewsFeed.matches "all" EmptyString article = true.
Proof. reflexivity. Qed.

(** C9: with the sentiment filter "all" and an empty ticker filter the
    filtered list is the article list itself. *)
Theorem filteredArticles_identity (articles : list NewsApi.Article) :
  NewsFeed.filteredArticles "all" EmptyString articles = articles.
Proof.
  unfold NewsFeed.filteredArticles.
  induction articles as [|a l IH]; cbn [List.filter].
  - reflexivity.
  - rewrite matches_all. f_equal. exact IH.
Qed.

(** ** Pagination of the archive *)

(** A press either does nothing or, with the button rendered and
    enabled, runs the handler. *)
Lemma press_cases (a : ArchiveLookup.Action) (s : ArchiveLookup.State) :
  ArchiveLookup.press a s = s \/
  (ArchiveLookup.paginationRendered s = true /\
   ArchiveLookup.disabled a s = false /\
   ArchiveLookup.press a s = ArchiveLookup.onClick a s).
Proof.
  unfold ArchiveLookup.press.
  destruct (ArchiveLookup.paginationRendered s); simpl; [|left; reflexivity].
  destruct (ArchiveLookup.disabled a s); simpl; [left; reflexivity|].
  right. repeat split.
Qed.

Lemma press_keeps (a : ArchiveLookup.Action) (s : ArchiveLookup.State) :
  ArchiveLookup.totalPages (ArchiveLookup.press a s)
    = ArchiveLookup.totalPages s /\
  ArchiveLookup.articles (ArchiveLookup.press a s) = ArchiveLookup.articles s.
Proof.
  destruct (press_cases a s) as [->|[_ [_ ->]]]; [split; reflexivity|].
  destruct a; split; reflexivity.
Qed.

(** The handlers clamp: a press from a page within range stays within
    range. *)
Lemma press_in_range (a : ArchiveLookup.Action) (s : ArchiveLookup.State) :
  (1 <= ArchiveLookup.currentPage s <= ArchiveLookup.totalPages s)%Z ->
  (1 <= ArchiveLookup.currentPage (ArchiveLookup.press a s)
     <= ArchiveLookup.totalPages s)%Z.
Proof.
  intro H.
  destruct (press_cases a s) as [->|[_ [_ ->]]]; [exact H|].
  destruct a; simpl; lia.
Qed.

Lemma paginationRendered_true (s : ArchiveLookup.State) :
  ArchiveLookup.paginationRendered s = true ->
  ArchiveLookup.articles s <> [] /\ (1 < ArchiveLookup.totalPages s)%Z.
Proof.
  unfold ArchiveLookup.paginationRendered.
  destruct (ArchiveLookup.articles s); [discriminate|].
  intro H. apply Z.ltb_lt in H. split; [discriminate | exact H].
Qed.

(** What a search stores does not depend on the state it starts from,
    the current page apart, which it keeps. *)
Lemma searchArticles_state (localeCompare : string -> string -> Q)
  (selectedTicker sentimentFilter sortBy : string)
  (response : option (list NewsApi.Article)) (s s' : ArchiveLookup.State) :
  ArchiveLookup.currentPage
    (ArchiveLookup.searchArticles localeCompare selectedTicker sentimentFilter
       sortBy response s) = ArchiveLookup.currentPage s /\
  ArchiveLookup.totalPages
    (ArchiveLookup.searchArticles localeCompare selectedTicker sentimentFilter
       sortBy response s) =
  ArchiveLookup.totalPages
    (ArchiveLookup.searchArticles localeCompare selectedTicker sentimentFilter
       sortBy response s').
Proof. destruct response; split; reflexivity. Qed.

(** While the requests keep returning the same response, the page count
    stays what the search made it and the page stays within range. *)
Lemma pressAll_same_response (localeCompare : string -> string -> Q)
  (f : ArchiveLookup.Filters) (response : option (list NewsApi.Article))
  (acts : list ArchiveLookup.Action) :
  forall s : ArchiveLookup.State,
  ArchiveLookup.totalPages s =
    ArchiveLookup.totalPages
      (ArchiveLookup.searchArticles localeCompare
         (ArchiveLookup.selectedTicker f) (ArchiveLookup.sentimentFilter f)
         (ArchiveLookup.sortBy f) response s) ->
  (1 <= ArchiveLookup.currentPage s <= ArchiveLookup.totalPages s)%Z ->
  (1 <= ArchiveLookup.currentPage
          (ArchiveLookup.pressAll localeCompare f
             (map (fun a => (a, response)) acts) s)
     <= ArchiveLookup.totalPages s)%Z.
Proof.
  unfold ArchiveLookup.pressAll.
  induction acts as [|a l IH]; intros s Ht H; simpl; [exact H|].
  pose proof (press_in_range a s H) as H1.
  destruct (press_keeps a s) as [Ht1 _].
  unfold ArchiveLookup.pressAndSettle.
  destruct (negb _ && ArchiveLookup.effectSearches f).
  - set (s2 := ArchiveLookup.searchArticles localeCompare _ _ _ response
                 (ArchiveLookup.press a s)).
    destruct (searchArticles_state localeCompare
                (ArchiveLookup.selectedTicker f)
                (ArchiveLookup.sentimentFilter f) (ArchiveLookup.sortBy f)
                response (ArchiveLookup.press a s) s) as [Hc2 Ht2].
    fold s2 in Hc2, Ht2. rewrite <- Ht in Ht2.
    rewrite <- Ht2. apply IH.
    + destruct (searchArticles_state localeCompare
                  (ArchiveLookup.selectedTicker f)
                  (ArchiveLookup.sentimentFilter f) (ArchiveLookup.sortBy f)
                  response s2 (ArchiveLookup.press a s)) as [_ Ht3].
      fold s2 in Ht3. exact (eq_sym Ht3).
    + rewrite Hc2, Ht2. exact H1.
  - rewrite <- Ht1. apply IH.
    + rewrite Ht1, Ht.
      apply (searchArticles_state localeCompare
               (ArchiveLookup.selectedTicker f)
               (ArchiveLookup.sentimentFilter f) (ArchiveLookup.sortBy f)
               response s (ArchiveLookup.press a s)).
    + rewrite Ht1. exact H1.
Qed.

(** C10: the handlers clamp the page, but the page is not kept within
    [1, totalPages] by a sequence of Previous/Next actions. currentPage is
    a dependency of the effect that re-runs the search, and the search
    replaces totalPages without touching currentPage. With the query
    "earnings": a search that fails shows the mock data on page 1 of 3;
    Next leads to page 2 (the request it triggers fails again); Next
    leads to page 3, and the request it triggers returns fifteen
    articles, so the bar, still rendered, reads page 3 of 2. *)
Theorem page_beyond_total_after_research
  (localeCompare : string -> string -> Q) :
  let s0 :=
    ArchiveLookup.handleSearch localeCompare earnings_query None
      ArchiveLookup.initialState in
  let s2 :=
    ArchiveLookup.pressAll localeCompare earnings_query
      [(ArchiveLookup.Next, None);
       (ArchiveLookup.Next, Some fifteen_articles)] s0 in
  (ArchiveLookup.currentPage s0 = 1%Z /\ ArchiveLookup.totalPages s0 = 3%Z) /\
  (ArchiveLookup.currentPage s2 = 3%Z /\ ArchiveLookup.totalPages s2 = 2%Z) /\
  ArchiveLookup.paginationRendered s2 = true /\
  ~ (1 <= ArchiveLookup.currentPage s2 <= ArchiveLookup.totalPages s2)%Z.
Proof.
  assert (E : ArchiveLookup.pressAll localeCompare earnings_query
                [(ArchiveLookup.Next, None);
                 (ArchiveLookup.Next, Some fifteen_articles)]
                (ArchiveLookup.handleSearch localeCompare earnings_query None
                   ArchiveLookup.initialState)
              = {| ArchiveLookup.articles :=
                     ArchiveLookup.searchResults localeCompare EmptyString
                       "all" "date" fifteen_articles;
                   ArchiveLookup.error := None;
                   ArchiveLookup.currentPage := 3;
                   ArchiveLookup.totalPages := 2 |})
    by reflexivity.
  cbv zeta. rewrite E.
  split; [split; reflexivity|]. split; [split; reflexivity|].
  split; [reflexivity|]. cbn [ArchiveLookup.currentPage ArchiveLookup.totalPages].
  lia.
Qed.

(** ** Sorting the search results *)

Section SortFacts.

Variable A : Type.
Variable compareFn : A -> A -> Q.

Lemma insertSorted_perm (x : A) (l : list A) :
  Permutation (x :: l) (Js.insertSorted compareFn x l).
Proof.
  induction l as [|y r IH]; simpl.
  - apply Permutation_refl.
  - destruct (Js.Qlt_bool 0 (compareFn x y)).
    + apply perm_trans with (y :: x :: r).
      * apply perm_swap.
      * apply perm_skip. exact IH.
    + apply Permutation_refl.
Qed.

Lemma sort_perm (l : list A) : Permutation l (Js.sort compareFn l).
Proof.
  unfold Js.sort.
  induction l as [|x r IH]; simpl.
  - apply perm_nil.
  - apply perm_trans with (x :: fold_right (Js.insertSorted compareFn) [] r).
    + apply perm_skip. exact IH.
    + apply insertSorted_perm.
Qed.

(** [R x y]: [x] may stand immediately before [y]. The comparison
    function agrees with [R] when a positive result means "goes after"
    and any other result means "may stay before". *)
Variable R : A -> A -> Prop.
Hypothesis goes_after : forall x y, (0 < compareFn x y)%Q -> R y x.
Hypothesis stays_before : forall x y, ~ (0 < compareFn x y)%Q -> R x y.

Lemma insertSorted_HdRel (a x : A) (l : list A) :
  R a x -> HdRel R a l -> HdRel R a (Js.insertSorted compareFn x l).
Proof.
  intros Hax Hal.
  destruct l as [|y r]; simpl.
  - constructor. exact Hax.
  - destruct (Js.Qlt_bool 0 (compareFn x y)).
    + inversion Hal; subst. constructor. assumption.
    + constructor. exact Hax.
Qed.

Lemma insertSorted_Sorted (x : A) (l : list A) :
  Sorted R l -> Sorted R (Js.insertSorted compareFn x l).
Proof.
  induction 1 as [|y r Hr IH Hy]; simpl.
  - repeat constructor.
  - destruct (Js.Qlt_bool 0 (compareFn x y)) eqn:E.
    + apply Qlt_bool_iff in E.
      constructor; [exact IH|].
      apply insertSorted_HdRel; [apply goes_after; exact E | exact Hy].
    + constructor.
      * constructor; assumption.
      * constructor. apply stays_before.
        intro H. apply Qlt_bool_iff in H. congruence.
Qed.

Lemma sort_Sorted (l : list A) : Sorted R (Js.sort compareFn l).
Proof.
  unfold Js.sort.
  induction l as [|x r IH]; simpl.
  - constructor.
  - apply insertSorted_Sorted. exact IH.
Qed.

End SortFacts.

Lemma Sorted_adjacent {A : Type} (R : A -> A -> Prop) (l : list A) :
  Sorted R l ->
  forall i a b, nth_error l i = Some a -> nth_error l (S i) = Some b -> R a b.
Proof.
  induction 1 as [|x r Hr IH Hx]; intros i a b Ha Hb.
  - destruct i; discriminate.
  - destruct i as [|i]; simpl in Ha, Hb.
    + injection Ha as <-.
      destruct r as [|y r']; [discriminate|].
      simpl in Hb. injection Hb as <-.
      inversion Hx; subst. assumption.
    + eapply IH; eassumption.
Qed.

Lemma date_goes_after (lc : string -> string -> Q) (x y : NewsApi.Article) :
  (0 < ArchiveLookup.compareArticles lc "date" x y)%Q -> newer_or_equal y x.
Proof.
  unfold ArchiveLookup.compareArticles, newer_or_equal. simpl.
  change 0%Q with (inject_Z 0). rewrite <- Zlt_Qlt. lia.
Qed.

Lemma date_stays_before (lc : string -> string -> Q) (x y : NewsApi.Article) :
  ~ (0 < ArchiveLookup.compareArticles lc "date" x y)%Q -> newer_or_equal x y.
Proof.
  unfold ArchiveLookup.compareArticles, newer_or_equal. simpl.
  change 0%Q with (inject_Z 0). rewrite <- Zlt_Qlt. lia.
Qed.

(** C8: sorted by date, the search results are the filtered articles
    rearranged newest first: the output is a permutation of the filtered
    response, and in every adjacent pair the earlier element's
    published_at is greater than or equal to the later element's. *)
Theorem searchResults_newest_first
  (localeCompare : string -> string -> Q)
  (selectedTicker sentimentFilter : string) (data : list NewsApi.Article) :
  Permutation
    (ArchiveLookup.applyFilters selectedTicker sentimentFilter data)
    (ArchiveLookup.searchResults localeCompare selectedTicker sentimentFilter
       "date" data) /\
  forall (i : nat) (a b : NewsApi.Article),
    nth_error (ArchiveLookup.searchResults localeCompare selectedTicker
                 sentimentFilter "date" data) i = Some a ->
    nth_error (ArchiveLookup.searchResults localeCompare selectedTicker
                 sentimentFilter "date" data) (S i) = Some b ->
    (NewsApi.published_at b <= NewsApi.published_at a)%Z.
Proof.
  unfold ArchiveLookup.searchResults. split.
  - apply sort_perm.
  - apply (Sorted_adjacent newer_or_equal).
    apply sort_Sorted.
    + apply date_goes_after.
    + apply date_stays_before.
Qed.

Lemma searchResults_newest_first_witness :
  exists a b,
    nth_error (ArchiveLookup.searchResults (fun _ _ => 0%Q) EmptyString "all" "date"
                 (rev ArchiveLookup.getMockArchiveData)) 0 = Some a /\
    nth_error (ArchiveLookup.searchResults (fun _ _ => 0%Q) EmptyString "all" "date"
                 (rev ArchiveLookup.getMockArchiveData)) 1 = Some b /\
    (NewsApi.published_at b <= NewsApi.published_at a)%Z.
Proof.
  do 2 eexists. split; [reflexivity|]. split; [reflexivity|].
  apply (proj2 (searchResults_newest_first (fun _ _ => 0%Q) EmptyString "all"
                  (rev ArchiveLookup.getMockArchiveData)) 0%nat);
    reflexivity.
Defined.

(** ** Tables and their primary keys *)

Lemma NoDup_map_unique_on {R A : Type} (f : R -> A) (t : list R) :
  NoDup (map f t) <-> Schema.unique_on f t.
Proof.
  unfold Schema.unique_on. rewrite NoDup_nth_error. split.
  - intros H i j r1 r2 H1 H2 Hf.
    apply H.
    + rewrite length_map. apply nth_error_Some. congruence.
    + rewrite !nth_error_map, H1, H2. simpl. congruence.
  - intros H i j Hi Hij.
    rewrite length_map in Hi. apply nth_error_Some in Hi.
    rewrite !nth_error_map in Hij.
    destruct (nth_error t i) as [r1|] eqn:E1; [|congruence].
    destruct (nth_error t j) as [r2|] eqn:E2; [|discriminate].
    simpl in Hij. injection Hij as Hf.
    exact (H i j r1 r2 E1 E2 Hf).
Qed.

Lemma NoDup_snoc {A : Type} (l : list A) (x : A) :
  NoDup l -> ~ In x l -> NoDup (l ++ [x]).
Proof.
  intros Hl Hx.
  apply (Permutation_NoDup (Permutation_cons_append l x)).
  constructor; assumption.
Qed.

Lemma NoDup_map_filter {R A : Type} (f : R -> A) (p : R -> bool) (t : list R) :
  NoDup (map f t) -> NoDup (map f (List.filter p t)).
Proof.
  induction t as [|r t IH]; simpl; intro H.
  - constructor.
  - inversion H as [|x l Hnin Hnd]; subst.
    destruct (p r); simpl; [|auto].
    constructor; [|auto].
    intro Hin. apply Hnin.
    apply in_map_iff in Hin. destruct Hin as [r' [Hf Hr']].
    apply filter_In in Hr'. apply in_map_iff. exists r'. tauto.
Qed.

Lemma forallb_snoc {A : Type} (p : A -> bool) (t : list A) (r : A) :
  forallb p (t ++ [r]) = forallb p t && p r.
Proof. rewrite forallb_app. simpl. rewrite andb_true_r. reflexivity. Qed.

Lemma forallb_filter {A : Type} (p q : A -> bool) (t : list A) :
  forallb p t = true -> forallb p (List.filter q t) = true.
Proof.
  rewrite !forallb_forall. intros H x Hx.
  apply filter_In in Hx. apply H. tauto.
Qed.

Section TableFacts.

Variables (R K : Type).
Variable key : R -> K.
Variable key_eqb : K -> K -> bool.
Variable stored : R -> option R.
Hypothesis key_eqb_eq : forall a b, key_eqb a b = true <-> a = b.

Lemma key_free_iff (k : K) (t : list R) :
  Schema.key_free key key_eqb k t = true <-> ~ In k (map key t).
Proof.
  unfold Schema.key_free. rewrite forallb_forall. split.
  - intros H Hin. apply in_map_iff in Hin. destruct Hin as [r [Hk Hr]].
    specialize (H r Hr). rewrite negb_true_iff in H.
    assert (key_eqb (key r) k = true) by (apply key_eqb_eq; exact Hk).
    congruence.
  - intros H r Hr. rewrite negb_true_iff.
    destruct (key_eqb (key r) k) eqn:E; [|reflexivity].
    exfalso. apply H. apply key_eqb_eq in E. subst k.
    apply in_map. exact Hr.
Qed.

(** An accepted [INSERT] appends the row as stored, whose key is
    fresh. *)
Lemma insert_Some (r : R) (t t' : list R) :
  Schema.insert key key_eqb stored r t = Some t' ->
  exists r', stored r = Some r' /\ t' = (t ++ [r'])%list /\
             ~ In (key r') (map key t).
Proof.
  unfold Schema.insert.
  destruct (stored r) as [r'|]; [|discriminate].
  destruct (Schema.key_free key key_eqb (key r') t) eqn:Ef; [|discriminate].
  intro H. injection H as <-.
  apply key_free_iff in Ef. exists r'. auto.
Qed.

(** An [INSERT] is refused when the table holds the key of the row as
    stored. *)
Lemma insert_duplicate (r r' : R) (t : list R) :
  stored r = Some r' -> In (key r') (map key t) ->
  Schema.insert key key_eqb stored r t = None.
Proof.
  intros Hs Hin. unfold Schema.insert. rewrite Hs.
  destruct (Schema.key_free key key_eqb (key r') t) eqn:Ef; [|reflexivity].
  apply key_free_iff in Ef. contradiction.
Qed.

(** A row that is stored as it is and whose key is fresh is accepted. *)
Lemma insert_fresh (r : R) (t : list R) :
  stored r = Some r -> ~ In (key r) (map key t) ->
  Schema.insert key key_eqb stored r t = Some (t ++ [r])%list.
Proof.
  intros Hs Hfree. unfold Schema.insert. rewrite Hs.
  apply key_free_iff in Hfree. rewrite Hfree. reflexivity.
Qed.

Lemma insert_keys (r : R) (t t' : list R) :
  Schema.insert key key_eqb stored r t = Some t' ->
  NoDup (map key t) -> NoDup (map key t').
Proof.
  intros H Hnd. apply insert_Some in H. destruct H as [r' [_ [-> Hfree]]].
  rewrite map_app. simpl. apply NoDup_snoc; assumption.
Qed.

Lemma update_rows_keys (cond : R -> bool) (set : R -> R) (pending : list R) :
  forall t t',
  Schema.update_rows key key_eqb stored cond set pending t = Some t' ->
  NoDup (map key t) -> NoDup (map key t').
Proof.
  induction pending as [|r rest IH]; simpl; intros t t' H Hnd.
  - injection H as <-. exact Hnd.
  - destruct (cond r); [|eauto].
    destruct (stored (set r)) as [r'|]; [|discriminate].
    destruct (Schema.key_free key key_eqb (key r') _) eqn:Ef; [|discriminate].
    apply (IH _ _ H).
    rewrite map_app. simpl. apply NoDup_snoc.
    + apply NoDup_map_filter. exact Hnd.
    + apply key_free_iff. exact Ef.
Qed.

Lemma update_keys (cond : R -> bool) (set : R -> R) (t t' : list R) :
  Schema.update key key_eqb stored cond set t = Some t' ->
  NoDup (map key t) -> NoDup (map key t').
Proof. apply update_rows_keys. Qed.

Lemma delete_keys (cond : R -> bool) (t : list R) :
  NoDup (map key t) -> NoDup (map key (Schema.delete cond t)).
Proof. apply NoDup_map_filter. Qed.

(** A property of rows that the rows written have is kept by the
    table. *)
Lemma insert_forallb (p : R -> bool) (r : R) (t t' : list R) :
  (forall r', stored r = Some r' -> p r' = true) ->
  Schema.insert key key_eqb stored r t = Some t' ->
  forallb p t = true -> forallb p t' = true.
Proof.
  intros Hp H Ht. apply insert_Some in H. destruct H as [r' [Hs [-> _]]].
  rewrite forallb_snoc, Ht, (Hp r' Hs). reflexivity.
Qed.

Lemma update_rows_forallb (p cond : R -> bool) (set : R -> R)
  (pending : list R) :
  (forall r r', cond r = true -> p r = true -> stored (set r) = Some r' ->
                p r' = true) ->
  forallb p pending = true ->
  forall t t',
  Schema.update_rows key key_eqb stored cond set pending t = Some t' ->
  forallb p t = true -> forallb p t' = true.
Proof.
  intro Hp.
  induction pending as [|r rest IH]; simpl; intros Hpend t t' H Ht.
  - injection H as <-. exact Ht.
  - apply andb_true_iff in Hpend. destruct Hpend as [Hr Hrest].
    destruct (cond r) eqn:Ec; [|eauto].
    destruct (stored (set r)) as [r'|] eqn:Es; [|discriminate].
    destruct (Schema.key_free key key_eqb (key r') _); [|discriminate].
    apply (IH Hrest _ _ H).
    rewrite forallb_snoc, (forallb_filter _ _ _ Ht), (Hp r r' Ec Hr Es).
    reflexivity.
Qed.

Lemma update_forallb (p cond : R -> bool) (set : R -> R) (t t' : list R) :
  (forall r r', cond r = true -> p r = true -> stored (set r) = Some r' ->
                p r' = true) ->
  Schema.update key key_eqb stored cond set t = Some t' ->
  forallb p t = true -> forallb p t' = true.
Proof.
  intros Hp H Ht. exact (update_rows_forallb p cond set t Hp Ht t t' H Ht).
Qed.

End TableFacts.

Lemma article_key_eqb_eq (a b : Schema.uuid * Schema.timestamp) :
  Schema.article_key_eqb a b = true <-> a = b.
Proof.
  destruct a as [i t], b as [j u]. unfold Schema.article_key_eqb. simpl.
  rewrite andb_true_iff, N.eqb_eq, Z.eqb_eq.
  split; [intros [-> ->]; reflexivity | intro H; injection H; auto].
Qed.

(** *** Rows as stored *)

Lemma length_substring_le (n m : nat) (s : string) :
  (String.length (substring n m s) <= m)%nat.
Proof.
  revert n m. induction s as [|c s IH]; intros n m.
  - destruct n, m; simpl; lia.
  - destruct n as [|n]; destruct m as [|m]; simpl; try lia.
    + specialize (IH 0%nat m). lia.
    + apply IH.
    + apply IH.
Qed.

(** A value assigned to a [VARCHAR(n)] column is stored within [n]
    characters, and a value within [n] characters is stored as it is. *)
Lemma varchar_within (n : nat) (s s' : string) :
  Schema.varchar n s = Some s' -> Schema.within n s' = true.
Proof.
  unfold Schema.varchar.
  destruct (Schema.within n s) eqn:E.
  - intro H. injection H as <-. exact E.
  - destruct (Schema.spaces _); [|discriminate].
    intro H. injection H as <-.
    apply Nat.leb_le. apply length_substring_le.
Qed.

Lemma within_varchar (n : nat) (s : string) :
  Schema.within n s = true -> Schema.varchar n s = Some s.
Proof. unfold Schema.varchar. intros ->. reflexivity. Qed.

Lemma within_opt_varchar (n : nat) (x : option string) :
  Schema.opt (Schema.within n) x = true -> Schema.opt_varchar n x = Some x.
Proof.
  destruct x as [s|]; simpl; [|reflexivity].
  intro H. rewrite (within_varchar n s H). reflexivity.
Qed.

(** Case analysis of a row that has been stored. *)
Ltac stored_cases H :=
  repeat match type of H with
  | context [match ?x with _ => _ end] =>
      destruct x eqn:?; try discriminate H
  end;
  injection H as <-.

Lemma news_article_stored_Some (r r' : Schema.news_article) :
  Schema.news_article_stored r = Some r' ->
  Schema.news_article_ok r' = true /\
  Schema.article_key r' = Schema.article_key r /\
  Schema.sentiment_score r' = Schema.sentiment_score r /\
  Schema.confidence_score r' = Schema.confidence_score r.
Proof.
  unfold Schema.news_article_stored. intro H.
  stored_cases H. repeat split. assumption.
Qed.

Lemma news_article_ok_stored (r : Schema.news_article) :
  Schema.news_article_ok r = true -> Schema.news_article_stored r = Some r.
Proof.
  intro Hok. pose proof Hok as H.
  unfold Schema.news_article_ok in H.
  repeat (apply andb_true_iff in H; destruct H as [H ?]).
  unfold Schema.news_article_stored.
  rewrite !within_varchar, !within_opt_varchar by assumption.
  destruct r. cbn [Schema.id Schema.published_at Schema.title Schema.content
    Schema.summary Schema.url Schema.source Schema.author Schema.ticker_symbol
    Schema.company_name Schema.sector Schema.industry Schema.created_at
    Schema.updated_at Schema.sentiment_score Schema.sentiment_label
    Schema.confidence_score Schema.sentiment_vector Schema.content_vector
    Schema.keywords Schema.entities Schema.market_impact_score
    Schema.is_processed Schema.is_archived Schema.raw_data].
  rewrite Hok. reflexivity.
Qed.

Lemma sentiment_analysis_stored_Some (r r' : Schema.sentiment_analysis) :
  Schema.sentiment_analysis_stored r = Some r' ->
  Schema.sentiment_analysis_ok r' = true /\
  Schema.sa_id r' = Schema.sa_id r /\
  Schema.sa_sentiment_score r' = Schema.sa_sentiment_score r /\
  Schema.sa_confidence_score r' = Schema.sa_confidence_score r.
Proof.
  unfold Schema.sentiment_analysis_stored. intro H.
  stored_cases H. repeat split. assumption.
Qed.

Lemma sentiment_analysis_ok_stored (r : Schema.sentiment_analysis) :
  Schema.sentiment_analysis_ok r = true ->
  Schema.sentiment_analysis_stored r = Some r.
Proof.
  intro Hok. pose proof Hok as H.
  unfold Schema.sentiment_analysis_ok in H.
  repeat (apply andb_true_iff in H; destruct H as [H ?]).
  unfold Schema.sentiment_analysis_stored.
  rewrite !within_varchar by assumption.
  destruct r. cbn [Schema.sa_id Schema.sa_article_id Schema.sa_model_name
    Schema.sa_analysis_type Schema.sa_sentiment_score Schema.sa_sentiment_label
    Schema.sa_confidence_score Schema.sa_embedding_vector
    Schema.sa_processing_time_ms Schema.sa_created_at Schema.sa_analysis_data].
  rewrite Hok. reflexivity.
Qed.

Lemma market_impact_stored_Some (r r' : Schema.market_impact) :
  Schema.market_impact_stored r = Some r' ->
  Schema.market_impact_ok r' = true /\
  Schema.mi_id r' = Schema.mi_id r /\
  Schema.price_before r' = Schema.price_before r /\
  Schema.price_after r' = Schema.price_after r.
Proof.
  unfold Schema.market_impact_stored. intro H.
  stored_cases H. repeat split. assumption.
Qed.

(** *** Keys in the states of the store *)

Lemma exec_keys_unique (st : Schema.statement) (db db' : Schema.database) :
  keys_unique db -> Schema.exec st db = Some db' -> keys_unique db'.
Proof.
  intros [Ha [Hs Hm]] H. unfold keys_unique.
  destruct st; simpl in H.
  - destruct (Schema.insert _ _ _ _ _) eqn:E; [|discriminate].
    injection H as <-. simpl. repeat split; try assumption.
    eapply insert_keys; eauto using article_key_eqb_eq.
  - destruct (Schema.update _ _ _ _ _ _) eqn:E; [|discriminate].
    injection H as <-. simpl. repeat split; try assumption.
    eapply update_keys; eauto using article_key_eqb_eq.
  - injection H as <-. simpl. repeat split; try assumption.
    apply delete_keys. assumption.
  - destruct (Schema.insert _ _ _ _ _) eqn:E; [|discriminate].
    injection H as <-. simpl. repeat split; try assumption.
    eapply insert_keys; eauto using N.eqb_eq.
  - destruct (Schema.insert _ _ _ _ _) eqn:E; [|discriminate].
    injection H as <-. simpl. repeat split; try assumption.
    eapply insert_keys; eauto using N.eqb_eq.
  - destruct (Schema.update _ _ _ _ _ _) eqn:E; [|discriminate].
    injection H as <-. simpl. repeat split; try assumption.
    eapply update_keys; eauto using N.eqb_eq.
  - injection H as <-. simpl. repeat split; try assumption.
    apply delete_keys. assumption.
Qed.

Lemma run_keys_unique (sts : list Schema.statement) :
  forall db db', keys_unique db -> Schema.run sts db = Some db' ->
                 keys_unique db'.
Proof.
  induction sts as [|st rest IH]; simpl; intros db db' Hk H.
  - injection H as <-. exact Hk.
  - destruct (Schema.exec st db) as [db1|] eqn:E; [|discriminate].
    eapply IH; [|exact H]. eapply exec_keys_unique; eauto.
Qed.

Lemma reachable_keys_unique (db : Schema.database) :
  Schema.reachable db -> keys_unique db.
Proof.
  intros [sts H]. eapply run_keys_unique; [|exact H].
  repeat split; constructor.
Qed.

(** ** The key of the article table *)

(** C5, as stated, fails on the schema: two rows with the same URL (hence
    the same dedup key, whatever the normalisation) and the same
    published_at are both accepted, because the primary key is
    (id, published_at) with a generated id; (dedup key, published_at)
    does not key the rows. *)
Lemma dedup_key_not_primary_key :
  exists db,
    Schema.run
      [Schema.InsertArticle (sample_article 1%N 1702650600000000%Z apple_url None None);
       Schema.InsertArticle (sample_article 2%N 1702650600000000%Z apple_url None None)]
      Schema.empty = Some db /\
    forall normalize hash,
      ~ Schema.unique_on
          (fun r => (Ingest.row_key normalize hash r, Schema.published_at r))
          (Schema.news_articles db).
Proof.
  eexists. split; [reflexivity|].
  intros normalize hash H.
  specialize (H 0%nat 1%nat _ _ eq_refl eq_refl eq_refl). discriminate.
Qed.

Lemma chunk_In (chunk_index : Schema.timestamp -> Z) (c : Z)
  (r : Schema.news_article) (t : list Schema.news_article) :
  In r (Schema.chunk chunk_index c t) <->
  In r t /\ c = Schema.chunk_of chunk_index r.
Proof.
  unfold Schema.chunk. rewrite filter_In, Z.eqb_eq.
  intuition congruence.
Qed.

(** C5 (amended): the article table is partitioned by published_at and
    each stored row is keyed by (id, published_at), id being the
    generated UUID: in every state of the store two rows at distinct
    positions differ in (id, published_at); every row lies in exactly the
    chunk its published_at selects, however the time axis is cut into
    chunks; and rows that agree on the key lie in the same chunk. *)
Theorem article_key_and_partition (chunk_index : Schema.timestamp -> Z)
  (db : Schema.database) :
  Schema.reachable db ->
  Schema.unique_on Schema.article_key (Schema.news_articles db) /\
  (forall r c,
     In r (Schema.chunk chunk_index c (Schema.news_articles db)) <->
     In r (Schema.news_articles db) /\
     c = chunk_index (Schema.published_at r)) /\
  (forall r1 r2,
     Schema.article_key r1 = Schema.article_key r2 ->
     Schema.chunk_of chunk_index r1 = Schema.chunk_of chunk_index r2).
Proof.
  intro Hr. split; [|split].
  - apply NoDup_map_unique_on. apply (reachable_keys_unique db Hr).
  - intros r c. apply chunk_In.
  - intros r1 r2 H. unfold Schema.chunk_of.
    unfold Schema.article_key in H. congruence.
Qed.

Lemma article_key_and_partition_witness :
  Schema.reachable two_articles /\
  Schema.unique_on Schema.article_key (Schema.news_articles two_articles).
Proof.
  assert (H : Schema.reachable two_articles).
  { exists [Schema.InsertArticle
              (sample_article 1%N 1702650600000000%Z apple_url None None);
            Schema.InsertArticle
              (sample_article 2%N 1702650600000000%Z apple_url None None)].
    reflexivity. }
  split; [exact H|].
  exact (proj1 (article_key_and_partition
                  (fun t => (t / 604800000000)%Z) two_articles H)).
Defined.

(** ** Deduplication *)

Lemma row_key_to_row (normalize : string -> string)
  (hash : string -> string -> Z -> string)
  (i : Schema.uuid) (a : Ingest.RawArticle) :
  Ingest.row_key normalize hash (Ingest.to_row i a) =
  Ingest.raw_key normalize hash a.
Proof. reflexivity. Qed.

(** C3, as stated, fails on the schema: the URL index is not unique, so
    writing the row of the same raw article twice (with the two
    identifiers the default draws) stores two rows with the same dedup
    key; the storage layer does not make equal dedup keys imply the same
    row. *)
Lemma url_not_unique_in_storage :
  exists db,
    Schema.run
      [Schema.InsertArticle (Ingest.to_row 1%N apple_raw);
       Schema.InsertArticle (Ingest.to_row 2%N apple_raw)]
      Schema.empty = Some db /\
    forall normalize hash,
      Ingest.copies normalize hash
        (Ingest.raw_key normalize hash apple_raw) db = 2%nat /\
      ~ Schema.unique_on (Ingest.row_key normalize hash)
          (Schema.news_articles db).
Proof.
  exists (Schema.with_articles Schema.empty
            [Ingest.to_row 1%N apple_raw; Ingest.to_row 2%N apple_raw]).
  split; [reflexivity|].
  intros normalize hash. split.
  - unfold Ingest.copies.
    cbn [Schema.news_articles Schema.with_articles List.filter].
    rewrite !row_key_to_row, String.eqb_refl. reflexivity.
  - intro H.
    specialize (H 0%nat 1%nat _ _ eq_refl eq_refl eq_refl). discriminate.
Qed.

(** C3 (amended): the storage layer guards the primary key
    (id, published_at) and not the dedup key. In every state of the
    store, rows at distinct positions differ in (id, published_at); a
    write whose (id, published_at) is already stored is refused; and a
    write that repeats the title, URL, source and published_at of a
    stored row (hence its dedup key, whatever the normalisation) under a
    key not yet stored is accepted and stored as a further row. Writing
    the same raw article twice thus leaves one row only if both writes
    carry the same id. *)
Theorem storage_guards_primary_key_only
  (normalize : string -> string) (hash : string -> string -> Z -> string)
  (db : Schema.database) (r r' : Schema.news_article) :
  Schema.reachable db ->
  In r (Schema.news_articles db) ->
  Schema.unique_on Schema.article_key (Schema.news_articles db) /\
  (Schema.article_key r' = Schema.article_key r ->
   Schema.exec (Schema.InsertArticle r') db = None) /\
  (Schema.title r' = Schema.title r -> Schema.url r' = Schema.url r ->
   Schema.source r' = Schema.source r ->
   Schema.published_at r' = Schema.published_at r ->
   Schema.news_article_ok r' = true ->
   ~ In (Schema.article_key r')
        (map Schema.article_key (Schema.news_articles db)) ->
   Ingest.row_key normalize hash r' = Ingest.row_key normalize hash r /\
   Schema.exec (Schema.InsertArticle r') db =
     Some (Schema.with_articles db (Schema.news_articles db ++ [r'])%list)).
Proof.
  intros Hr Hin. split; [|split].
  - apply NoDup_map_unique_on. apply (reachable_keys_unique db Hr).
  - intro Hk. simpl.
    destruct (Schema.news_article_stored r') as [r''|] eqn:Es.
    + destruct (news_article_stored_Some _ _ Es) as [_ [Hk' _]].
      rewrite (insert_duplicate _ _ Schema.article_key Schema.article_key_eqb
                 Schema.news_article_stored article_key_eqb_eq r' r''
                 (Schema.news_articles db) Es).
      * reflexivity.
      * rewrite Hk', Hk. apply in_map. exact Hin.
    + unfold Schema.insert. rewrite Es. reflexivity.
  - intros Ht Hu Hs Hp Hok Hfresh. split.
    + unfold Ingest.row_key. rewrite Ht, Hu, Hs, Hp. reflexivity.
    + simpl.
      rewrite (insert_fresh _ _ Schema.article_key Schema.article_key_eqb
                 Schema.news_article_stored article_key_eqb_eq r'
                 (Schema.news_articles db)
                 (news_article_ok_stored r' Hok) Hfresh).
      reflexivity.
Qed.

Lemma storage_guards_primary_key_only_witness :
  Schema.reachable one_article /\
  In (Ingest.to_row 1%N apple_raw) (Schema.news_articles one_article) /\
  Schema.exec (Schema.InsertArticle (Ingest.to_row 1%N apple_raw)) one_article
    = None /\
  Schema.exec (Schema.InsertArticle (Ingest.to_row 2%N apple_raw)) one_article
    = Some (Schema.with_articles one_article
              [Ingest.to_row 1%N apple_raw; Ingest.to_row 2%N apple_raw]).
Proof.
  assert (Hr : Schema.reachable one_article).
  { exists [Schema.InsertArticle (Ingest.to_row 1%N apple_raw)].
    reflexivity. }
  assert (Hin : In (Ingest.to_row 1%N apple_raw)
                   (Schema.news_articles one_article))
    by (left; reflexivity).
  split; [exact Hr|]. split; [exact Hin|]. split.
  - exact (proj1 (proj2 (storage_guards_primary_key_only
                           (fun u => u) (fun t s d => t) one_article
                           (Ingest.to_row 1%N apple_raw)
                           (Ingest.to_row 1%N apple_raw) Hr Hin)) eq_refl).
  - refine (proj2 (proj2 (proj2 (storage_guards_primary_key_only
                                   (fun u => u) (fun t s d => t) one_article
                                   (Ingest.to_row 1%N apple_raw)
                                   (Ingest.to_row 2%N apple_raw) Hr Hin))
                     eq_refl eq_refl eq_refl eq_refl eq_refl _)).
    intros [H|[]]. discriminate H.
Defined.

(** ** Score domains and price pairs in the store *)

(** Case analysis of an accepted statement: the table it rewrites. *)
Ltac exec_cases H :=
  match type of H with
  | Schema.exec ?st ?db = Some ?db' =>
      destruct st; simpl in H;
      repeat match type of H with
      | option_map _ ?x = Some _ =>
          let E := fresh "E" in
          destruct x eqn:E; simpl in H; [|discriminate H]
      end;
      injection H as <-
  end.



Lemma stored_impact_prices (r r' : Schema.market_impact) :
  Schema.market_impact_stored r = Some r' ->
  Schema.prices_paired r' = Schema.prices_paired r.
Proof.
  intro H. apply market_impact_stored_Some in H.
  destruct H as [_ [_ [Hb Ha]]].
  unfold Schema.prices_paired. rewrite Hb, Ha. reflexivity.
Qed.


(** Likewise for the two price columns, which are independently
    nullable. *)
Lemma exec_paired (st : Schema.statement) (db db' : Schema.database) :
  writes_paired st ->
  Schema.impacts_paired db = true ->
  Schema.exec st db = Some db' ->
  Schema.impacts_paired db' = true.
Proof.
  unfold Schema.impacts_paired. intros Hw Hp H.
  exec_cases H; simpl in *; try exact Hp.
  - apply (insert_forallb _ _ _ _ _ N.eqb_eq _ _ _ _
             (fun r' Hr' => eq_trans (stored_impact_prices _ _ Hr') Hw) E Hp).
  - apply (update_forallb _ _ _ _ _ _ cond set _ _
             (fun x x' Hc Hx Hx' =>
                eq_trans (stored_impact_prices _ _ Hx') (Hw x Hc Hx)) E Hp).
  - apply forallb_filter. exact Hp.
Qed.

(** A transaction keeps what each of its statements keeps. *)
Lemma transaction_keeps (inv : Schema.database -> Prop)
  (good : Schema.statement -> Prop) :
  (forall st db db', good st -> inv db -> Schema.exec st db = Some db' ->
                     inv db') ->
  forall sts db, Forall good sts -> inv db ->
                 inv (Pipeline.transaction sts db).
Proof.
  intros Hstep sts db Hg Hi. unfold Pipeline.transaction.
  destruct (Schema.run sts db) as [db'|] eqn:E; [|exact Hi].
  revert db Hi E. induction Hg as [|st rest Hst Hrest IH]; simpl; intros db Hi E.
  - injection E as <-. exact Hi.
  - destruct (Schema.exec st db) as [db1|] eqn:E1; [|discriminate].
    apply (IH db1); [|exact E]. exact (Hstep st db db1 Hst Hi E1).
Qed.

(** ** The ensemble combination rule *)

Section EnsembleFacts.

Variables a b : Ensemble.MemberResult.
Hypothesis conf_a : (0 <= Ensemble.confidence a)%Q.
Hypothesis conf_b : (0 <= Ensemble.confidence b)%Q.
Hypothesis conf_pos : (0 < Ensemble.confidence a + Ensemble.confidence b)%Q.






End EnsembleFacts.




(** ** The write paths of the pipeline *)


Lemma score_statements_paired (penalty ceiling : Q)
  (confidence_weight : Ensemble.MemberResult -> Ensemble.MemberResult -> Q)
  (job : Pipeline.ScoringJob) :
  Forall writes_paired
    (Pipeline.score_statements penalty ceiling confidence_weight job).
Proof.
  unfold Pipeline.score_statements.
  destruct (Ensemble.combine _ _ _ _ _) as [e|]; [|constructor].
  unfold Pipeline.member_record.
  destruct (Pipeline.local_result job), (Pipeline.hosted_result job);
    repeat constructor.
Qed.

(** A record that [correlate] returns carries both prices. *)
Lemma correlate_both_prices
  (price_at : string -> Schema.timestamp -> option Pipeline.Observation)
  (resolvable : Schema.news_article -> string -> bool)
  (correlation impact : Q -> Q -> Q)
  (job : Pipeline.CorrelationJob) (m : Schema.market_impact) :
  Pipeline.correlate price_at resolvable correlation impact job = inr m ->
  exists before after,
    price_at (Pipeline.ticker job)
      (Schema.published_at (Pipeline.article job)) = Some before /\
    price_at (Pipeline.ticker job)
      (Schema.published_at (Pipeline.article job)
       + Pipeline.hours (Pipeline.window_hours job))%Z = Some after /\
    Schema.price_before m = Some (Schema.Finite (Pipeline.price before)) /\
    Schema.price_after m = Some (Schema.Finite (Pipeline.price after)).
Proof.
  unfold Pipeline.correlate. intro H.
  repeat match type of H with
  | context [match ?x with _ => _ end] => destruct x eqn:?; try discriminate H
  end.
  injection H as <-. do 2 eexists. repeat split; reflexivity.
Qed.

Section PipelineFacts.

Variables penalty ceiling : Q.
Variable confidence_weight
  : Ensemble.MemberResult -> Ensemble.MemberResult -> Q.
Variable price_at : string -> Schema.timestamp -> option Pipeline.Observation.
Variable resolvable : Schema.news_article -> string -> bool.
Variables correlation impact : Q -> Q -> Q.


Lemma perform_paired (op : Pipeline.operation) (db : Schema.database) :
  Schema.impacts_paired db = true ->
  Schema.impacts_paired
    (Pipeline.perform penalty ceiling confidence_weight price_at resolvable
       correlation impact op db) = true.
Proof.
  intro Hok.
  pose proof (transaction_keeps (fun d => Schema.impacts_paired d = true)
                writes_paired
                (fun st d d' Hw Hd He => exec_paired st d d' Hw Hd He))
    as Htx.
  destruct op; simpl.
  - unfold Pipeline.ingest_one.
    destruct (_ && _); [|exact Hok].
    apply Htx; [|exact Hok]. repeat constructor.
  - apply Htx; [|exact Hok]. apply score_statements_paired.
  - apply Htx; [|exact Hok]. repeat constructor.
  - unfold Pipeline.correlate_and_commit.
    destruct (Pipeline.correlate _ _ _ _ _) as [|m] eqn:Ec; [exact Hok|].
    apply Htx; [|exact Hok].
    constructor; [exact I|]. constructor; [|constructor]. simpl.
    destruct (correlate_both_prices _ _ _ _ _ _ Ec)
      as [before [after [_ [_ [Hb Ha]]]]].
    unfold Schema.prices_paired. rewrite Hb, Ha. reflexivity.
  - apply Htx; [|exact Hok]. repeat constructor.
  - exact Hok.
Qed.

End PipelineFacts.



(** C6: in every persisted MarketImpact record price_before and
    price_after are both present or both null. The two columns are
    independently nullable, so the schema does not enforce this; the
    operations of the pipeline maintain it: a record that correlate
    returns carries the prices at both ends of the window, a job that
    lacks a price at either end or is abandoned before its commit
    leaves the store as it is, and no other operation writes impact
    rows. *)
Theorem no_partial_price_snapshot
  (penalty ceiling : Q)
  (confidence_weight : Ensemble.MemberResult -> Ensemble.MemberResult -> Q)
  (price_at : string -> Schema.timestamp -> option Pipeline.Observation)
  (resolvable : Schema.news_article -> string -> bool)
  (correlation impact : Q -> Q -> Q)
  (ops : list Pipeline.operation) (db : Schema.database) :
  Schema.impacts_paired db = true ->
  Schema.impacts_paired
    (Pipeline.perform_all penalty ceiling confidence_weight price_at
       resolvable correlation impact ops db) = true /\
  (forall job m,
     Pipeline.correlate price_at resolvable correlation impact job = inr m ->
     Schema.price_before m <> None /\ Schema.price_after m <> None) /\
  (forall job e,
     Pipeline.correlate price_at resolvable correlation impact job = inl e ->
     Pipeline.perform penalty ceiling confidence_weight price_at resolvable
       correlation impact (Pipeline.Correlate job) db = db) /\
  (forall op,
     Pipeline.perform penalty ceiling confidence_weight price_at resolvable
       correlation impact (Pipeline.Abandoned op) db = db).
Proof.
  intro Hok. split; [|split; [|split]].
  - revert db Hok. unfold Pipeline.perform_all.
    induction ops as [|op rest IH]; simpl; intros db Hok; [exact Hok|].
    apply IH. apply perform_paired. exact Hok.
  - intros job m Hm.
    destruct (correlate_both_prices _ _ _ _ _ _ Hm)
      as [before [after [_ [_ [Hb Ha]]]]].
    rewrite Hb, Ha. split; discriminate.
  - intros job e He. simpl. unfold Pipeline.correlate_and_commit.
    rewrite He. reflexivity.
  - intro op. reflexivity.
Qed.

Lemma no_partial_price_snapshot_witness :
  Schema.impacts_paired Schema.empty = true /\
  Schema.impacts_paired
    (Pipeline.perform_all (1 # 4) (9 # 10) equal_weights sample_feed
       (fun _ _ => true) (fun _ _ => 0%Q) (fun _ _ => 0%Q)
       [Pipeline.Correlate sample_correlation] Schema.empty) = true /\
  map Schema.price_before
    (Schema.market_impacts
       (Pipeline.perform_all (1 # 4) (9 # 10) equal_weights sample_feed
          (fun _ _ => true) (fun _ _ => 0%Q) (fun _ _ => 0%Q)
          [Pipeline.Correlate sample_correlation] Schema.empty))
  = [Some (Schema.Finite 150)].
Proof.
  split; [reflexivity|]. split.
  - exact (proj1 (no_partial_price_snapshot (1 # 4) (9 # 10) equal_weights
                    sample_feed (fun _ _ => true) (fun _ _ => 0%Q)
                    (fun _ _ => 0%Q)
                    [Pipeline.Correlate sample_correlation] Schema.empty
                    eq_refl)).
  - reflexivity.
Defined.

(* ===================================================================== *)
(** * Further properties of the components and of the schema *)
(* ===================================================================== *)

(** ** Strings *)

Lemma lowerAscii_idempotent (c : ascii) :
  Js.lowerAscii (Js.lowerAscii c) = Js.lowerAscii c.
Proof.
  destruct c as [[] [] [] [] [] [] [] []]; reflexivity.
Qed.

Lemma toLowerCase_idempotent (s : string) :
  Js.toLowerCase (Js.toLowerCase s) = Js.toLowerCase s.
Proof.
  induction s as [|c s IH]; simpl.
  - reflexivity.
  - rewrite lowerAscii_idempotent, IH. reflexivity.
Qed.

Lemma truthyString_toLowerCase (s : string) :
  Js.truthyString (Js.toLowerCase s) = Js.truthyString s.
Proof. destruct s; reflexivity. Qed.

Lemma prefix_refl (s : string) : prefix s s = true.
Proof.
  induction s as [|c s IH]; simpl.
  - reflexivity.
  - destruct (ascii_dec c c); [exact IH | congruence].
Qed.

Lemma includes_refl (s : string) : Js.includes s s = true.
Proof.
  destruct s; simpl.
  - reflexivity.
  - destruct (ascii_dec a a); [|congruence]. rewrite prefix_refl. reflexivity.
Qed.

(** The empty string contains no non-empty string. *)
Lemma includes_empty_hay (needle : string) :
  Js.truthyString needle = true -> Js.includes EmptyString needle = false.
Proof. destruct needle; [discriminate | reflexivity]. Qed.

(** ** Lists *)

Lemma filter_filter_and {A : Type} (p q : A -> bool) (l : list A) :
  List.filter p (List.filter q l) = List.filter (fun x => q x && p x) l.
Proof.
  induction l as [|x l IH]; simpl.
  - reflexivity.
  - destruct (q x); simpl; [destruct (p x)|]; rewrite ?IH; reflexivity.
Qed.

Lemma filter_all {A : Type} (p : A -> bool) (l : list A) :
  (forall x, p x = true) -> List.filter p l = l.
Proof.
  intro H. induction l as [|x l IH]; simpl.
  - reflexivity.
  - rewrite H, IH. reflexivity.
Qed.

Lemma filter_all_in {A : Type} (p : A -> bool) (l : list A) :
  (forall x, In x l -> p x = true) -> List.filter p l = l.
Proof.
  induction l as [|x l IH]; simpl; intro H.
  - reflexivity.
  - rewrite (H x (or_introl eq_refl)), IH; [reflexivity|].
    intros y Hy. apply H. right. exact Hy.
Qed.

(** ** The news feed filter, continued *)

Lemma matches_split (f t : string) (a : NewsApi.Article) :
  NewsFeed.matches f t a =
  NewsFeed.matches "all" t a && NewsFeed.matches f EmptyString a.
Proof.
  unfold NewsFeed.matches. simpl.
  rewrite andb_true_r. apply andb_comm.
Qed.

(** The two filters of the news feed act independently: filtering by
    sentiment and ticker at once is filtering by ticker and then by
    sentiment, or by sentiment and then by ticker; and filtering an
    already filtered list again changes nothing. *)
Theorem filteredArticles_compose
  (f t : string) (articles : list NewsApi.Article) :
  NewsFeed.filteredArticles f t articles =
    NewsFeed.filteredArticles f EmptyString
      (NewsFeed.filteredArticles "all" t articles) /\
  NewsFeed.filteredArticles f t articles =
    NewsFeed.filteredArticles "all" t
      (NewsFeed.filteredArticles f EmptyString articles) /\
  NewsFeed.filteredArticles f t (NewsFeed.filteredArticles f t articles) =
    NewsFeed.filteredArticles f t articles.
Proof.
  unfold NewsFeed.filteredArticles. rewrite !filter_filter_and.
  repeat split; apply filter_ext; intro a.
  - apply matches_split.
  - rewrite (matches_split f t a). apply andb_comm.
  - destruct (NewsFeed.matches f t a); reflexivity.
Qed.

Lemma matches_lowercase (f t : string) (a : NewsApi.Article) :
  NewsFeed.matches f (Js.toLowerCase t) a = NewsFeed.matches f t a.
Proof.
  unfold NewsFeed.matches.
  rewrite truthyString_toLowerCase, toLowerCase_idempotent. reflexivity.
Qed.

(** The ticker filter ignores letter case: two filter texts with the same
    lower-case form select the same articles. *)
Theorem ticker_filter_case_insensitive
  (f t1 t2 : string) (articles : list NewsApi.Article) :
  Js.toLowerCase t1 = Js.toLowerCase t2 ->
  NewsFeed.filteredArticles f t1 articles =
  NewsFeed.filteredArticles f t2 articles.
Proof.
  intro H. unfold NewsFeed.filteredArticles.
  apply filter_ext. intro a.
  rewrite <- (matches_lowercase f t1 a), <- (matches_lowercase f t2 a), H.
  reflexivity.
Qed.

Lemma ticker_filter_case_insensitive_witness :
  Js.toLowerCase "aapl" = Js.toLowerCase "AAPL" /\
  NewsFeed.filteredArticles "all" "aapl" ArchiveLookup.getMockArchiveData =
  NewsFeed.filteredArticles "all" "AAPL" ArchiveLookup.getMockArchiveData.
Proof.
  split; [reflexivity|].
  apply (ticker_filter_case_insensitive "all" "aapl" "AAPL"
           ArchiveLookup.getMockArchiveData).
  reflexivity.
Defined.

(** Under a non-empty ticker filter an article without ticker is hidden
    whatever the sentiment filter, and an article is shown (sentiment
    "all") when the text typed is its own ticker in any letter case. *)
Theorem ticker_filter_own_ticker
  (f typed : string) (a : NewsApi.Article) :
  Js.truthyString typed = true ->
  (NewsApi.ticker_symbol a = None -> NewsFeed.matches f typed a = false) /\
  (forall t, NewsApi.ticker_symbol a = Some t ->
             Js.toLowerCase typed = Js.toLowerCase t ->
             NewsFeed.matches "all" typed a = true).
Proof.
  intro Ht. unfold NewsFeed.matches. rewrite Ht. simpl. split.
  - intros ->. apply andb_false_r.
  - intros t -> E. rewrite E, includes_refl, andb_true_r.
    rewrite <- (truthyString_toLowerCase t), <- E, truthyString_toLowerCase.
    exact Ht.
Qed.

Lemma ticker_filter_own_ticker_witness :
  Js.truthyString "tsla" = true /\
  NewsFeed.matches "all" "tsla"
    {| NewsApi.id := "2";
       NewsApi.title := "Tesla Faces Regulatory Scrutiny Over Safety Concerns";
       NewsApi.ticker_symbol := Some "TSLA";
       NewsApi.published_at := 0;
       NewsApi.sentiment_score := Js.VNum (-6 # 10);
       NewsApi.sentiment_label := Some "negative" |} = true.
Proof.
  split; [reflexivity|].
  match goal with
  | |- NewsFeed.matches _ _ ?a = true =>
      exact (proj2 (ticker_filter_own_ticker "all" "tsla" a eq_refl)
               "TSLA" eq_refl eq_refl)
  end.
Defined.

(** The archive applies its two optional filters one after the other; the
    result is the list the news feed's single predicate selects. *)
Theorem applyFilters_is_feed_filter
  (selectedTicker sentimentFilter : string) (data : list NewsApi.Article) :
  ArchiveLookup.applyFilters selectedTicker sentimentFilter data =
  NewsFeed.filteredArticles sentimentFilter selectedTicker data.
Proof.
  unfold ArchiveLookup.applyFilters, NewsFeed.filteredArticles.
  destruct (Js.truthyString selectedTicker) eqn:Et;
    destruct (String.eqb_spec sentimentFilter "all") as [Es|Es]; simpl.
  - apply filter_ext. intro a. unfold NewsFeed.matches.
    rewrite Et, Es. simpl.
    destruct (NewsApi.ticker_symbol a) as [t|]; [|reflexivity].
    destruct (Js.truthyString t) eqn:E; [reflexivity|].
    destruct t; [|discriminate]. simpl.
    apply includes_empty_hay. rewrite truthyString_toLowerCase. exact Et.
  - rewrite filter_filter_and. apply filter_ext. intro a.
    unfold NewsFeed.matches. rewrite Et.
    apply String.eqb_neq in Es. rewrite Es. simpl.
    rewrite andb_comm. f_equal.
    destruct (NewsApi.ticker_symbol a) as [t|]; [|reflexivity].
    destruct (Js.truthyString t) eqn:E; [reflexivity|].
    destruct t; [|discriminate]. simpl.
    apply includes_empty_hay. rewrite truthyString_toLowerCase. exact Et.
  - symmetry. apply filter_all. intro a. unfold NewsFeed.matches.
    rewrite Et, Es. reflexivity.
  - apply filter_ext. intro a. unfold NewsFeed.matches. rewrite Et.
    apply String.eqb_neq in Es. rewrite Es. simpl.
    rewrite andb_true_r. reflexivity.
Qed.

(** ** Sorting the search results, continued *)

Section SortMore.

Variable A : Type.
Variable compareFn : A -> A -> Q.

(** A comparison function that never asks for a swap leaves the array as
    it is. *)
Lemma sort_never_positive (l : list A) :
  (forall x y, ~ (0 < compareFn x y)%Q) -> Js.sort compareFn l = l.
Proof.
  intro H. unfold Js.sort.
  induction l as [|x r IH]; simpl; [reflexivity|].
  rewrite IH. destruct r as [|y r']; simpl; [reflexivity|].
  destruct (Js.Qlt_bool 0 (compareFn x y)) eqn:E; [|reflexivity].
  apply Qlt_bool_iff in E. exfalso. exact (H x y E).
Qed.

(** A list in which no element asks to go after its successor is left as
    it is. *)
Lemma sort_sorted_id (R : A -> A -> Prop) (l : list A) :
  (forall x y, R x y -> ~ (0 < compareFn x y)%Q) ->
  Sorted R l -> Js.sort compareFn l = l.
Proof.
  intros HR. unfold Js.sort.
  induction 1 as [|x r Hr IH Hx]; simpl; [reflexivity|].
  rewrite IH. destruct Hx as [|y r' Hxy]; simpl; [reflexivity|].
  destruct (Js.Qlt_bool 0 (compareFn x y)) eqn:E; [|reflexivity].
  apply Qlt_bool_iff in E. exfalso. exact (HR x y Hxy E).
Qed.

(** Insertion does not disturb the elements of a class [p] that the
    inserted element never jumps over. *)
Lemma insertSorted_filter (p : A -> bool) (x : A) (l : list A) :
  (forall y, p x = true -> (0 < compareFn x y)%Q -> p y = false) ->
  List.filter p (Js.insertSorted compareFn x l) = List.filter p (x :: l).
Proof.
  intro H. induction l as [|y r IH]; [reflexivity|].
  cbn [Js.insertSorted].
  destruct (Js.Qlt_bool 0 (compareFn x y)) eqn:E; [|reflexivity].
  apply Qlt_bool_iff in E.
  cbn [List.filter] in *. rewrite IH.
  destruct (p x) eqn:Ex; [|reflexivity].
  rewrite (H y eq_refl E). reflexivity.
Qed.

Lemma sort_filter (p : A -> bool) (l : list A) :
  (forall x y, p x = true -> (0 < compareFn x y)%Q -> p y = false) ->
  List.filter p (Js.sort compareFn l) = List.filter p l.
Proof.
  intro H. unfold Js.sort.
  induction l as [|x r IH]; [reflexivity|].
  cbn [fold_right]. rewrite insertSorted_filter by (apply H).
  cbn [List.filter]. rewrite IH. reflexivity.
Qed.

End SortMore.

Lemma sentiment_goes_after (lc : string -> string -> Q) (x y : NewsApi.Article) :
  (0 < ArchiveLookup.compareArticles lc "sentiment" x y)%Q ->
  higher_or_equal y x.
Proof.
  unfold ArchiveLookup.compareArticles, higher_or_equal. simpl. lra.
Qed.

Lemma sentiment_stays_before (lc : string -> string -> Q)
  (x y : NewsApi.Article) :
  ~ (0 < ArchiveLookup.compareArticles lc "sentiment" x y)%Q ->
  higher_or_equal x y.
Proof.
  unfold ArchiveLookup.compareArticles, higher_or_equal. simpl. lra.
Qed.

(** Sorted by sentiment, the search results are the filtered articles
    rearranged by descending score, an article without score (missing,
    null or 0) ranking as 0: in every adjacent pair the earlier element's
    [sentiment_score || 0] is greater than or equal to the later one's. *)
Theorem searchResults_by_sentiment
  (localeCompare : string -> string -> Q)
  (selectedTicker sentimentFilter : string) (data : list NewsApi.Article) :
  Permutation
    (ArchiveLookup.applyFilters selectedTicker sentimentFilter data)
    (ArchiveLookup.searchResults localeCompare selectedTicker sentimentFilter
       "sentiment" data) /\
  forall (i : nat) (a b : NewsApi.Article),
    nth_error (ArchiveLookup.searchResults localeCompare selectedTicker
                 sentimentFilter "sentiment" data) i = Some a ->
    nth_error (ArchiveLookup.searchResults localeCompare selectedTicker
                 sentimentFilter "sentiment" data) (S i) = Some b ->
    (Js.orZero (NewsApi.sentiment_score b)
     <= Js.orZero (NewsApi.sentiment_score a))%Q.
Proof.
  unfold ArchiveLookup.searchResults. split.
  - apply sort_perm.
  - apply (Sorted_adjacent higher_or_equal).
    apply sort_Sorted.
    + apply sentiment_goes_after.
    + apply sentiment_stays_before.
Qed.

Lemma searchResults_by_sentiment_witness :
  exists a b,
    nth_error (ArchiveLookup.searchResults (fun _ _ => 0%Q) EmptyString "all"
                 "sentiment" ArchiveLookup.getMockArchiveData) 1 = Some a /\
    nth_error (ArchiveLookup.searchResults (fun _ _ => 0%Q) EmptyString "all"
                 "sentiment" ArchiveLookup.getMockArchiveData) 2 = Some b /\
    (Js.orZero (NewsApi.sentiment_score b)
     <= Js.orZero (NewsApi.sentiment_score a))%Q.
Proof.
  do 2 eexists. split; [reflexivity|]. split; [reflexivity|].
  apply (proj2 (searchResults_by_sentiment (fun _ _ => 0%Q) EmptyString "all"
                  ArchiveLookup.getMockArchiveData) 1%nat);
    reflexivity.
Defined.

(** Whatever the sort key and whatever [localeCompare] returns, sorting
    loses and duplicates nothing: the results are a permutation of the
    filtered articles. Under a sort key other than "date", "sentiment" and
    "title" the filtered articles keep their order. *)
Theorem searchResults_permutation
  (localeCompare : string -> string -> Q)
  (selectedTicker sentimentFilter sortBy : string)
  (data : list NewsApi.Article) :
  Permutation
    (ArchiveLookup.applyFilters selectedTicker sentimentFilter data)
    (ArchiveLookup.searchResults localeCompare selectedTicker sentimentFilter
       sortBy data) /\
  (sortBy <> "date" -> sortBy <> "sentiment" -> sortBy <> "title" ->
   ArchiveLookup.searchResults localeCompare selectedTicker sentimentFilter
     sortBy data
   = ArchiveLookup.applyFilters selectedTicker sentimentFilter data).
Proof.
  unfold ArchiveLookup.searchResults. split.
  - apply sort_perm.
  - intros Hd Hs Ht. apply sort_never_positive.
    intros x y. unfold ArchiveLookup.compareArticles.
    apply String.eqb_neq in Hd, Hs, Ht. rewrite Hd, Hs, Ht.
    intro H. discriminate H.
Qed.

Lemma searchResults_permutation_witness :
  ArchiveLookup.searchResults (fun _ _ => 1%Q) EmptyString "all" "relevance"
    ArchiveLookup.getMockArchiveData
  = ArchiveLookup.applyFilters EmptyString "all"
      ArchiveLookup.getMockArchiveData.
Proof.
  apply (proj2 (searchResults_permutation (fun _ _ => 1%Q) EmptyString "all"
                  "relevance" ArchiveLookup.getMockArchiveData));
    discriminate.
Defined.

(** The date sort is stable: the articles published at one instant appear
    in the results in the order they had in the filtered response. *)
Theorem date_sort_stable
  (localeCompare : string -> string -> Q)
  (selectedTicker sentimentFilter : string) (data : list NewsApi.Article)
  (t : Z) :
  List.filter (fun a => Z.eqb (NewsApi.published_at a) t)
    (ArchiveLookup.searchResults localeCompare selectedTicker sentimentFilter
       "date" data)
  = List.filter (fun a => Z.eqb (NewsApi.published_at a) t)
      (ArchiveLookup.applyFilters selectedTicker sentimentFilter data).
Proof.
  unfold ArchiveLookup.searchResults. apply sort_filter.
  intros x y Hx Hc.
  apply Z.eqb_eq in Hx. apply Z.eqb_neq. intro Hy.
  unfold ArchiveLookup.compareArticles in Hc. simpl in Hc.
  rewrite Hx, Hy, Z.sub_diag in Hc.
  exact (Qlt_irrefl 0 Hc).
Qed.

(** Sorting the date-sorted results by date once more changes nothing. *)
Theorem date_sort_idempotent
  (localeCompare : string -> string -> Q)
  (selectedTicker sentimentFilter : string) (data : list NewsApi.Article) :
  Js.sort (ArchiveLookup.compareArticles localeCompare "date")
    (ArchiveLookup.searchResults localeCompare selectedTicker sentimentFilter
       "date" data)
  = ArchiveLookup.searchResults localeCompare selectedTicker sentimentFilter
      "date" data.
Proof.
  unfold ArchiveLookup.searchResults.
  apply (sort_sorted_id _ _ newer_or_equal).
  - intros x y Hxy. unfold newer_or_equal in Hxy.
    unfold ArchiveLookup.compareArticles. simpl.
    change 0%Q with (inject_Z 0). rewrite <- Zlt_Qlt. lia.
  - apply sort_Sorted.
    + apply date_goes_after.
    + apply date_stays_before.
Qed.

(** Sorted by title, the results are in ascending title order as
    [localeCompare] sees it, provided [localeCompare] never rates two
    titles as each greater than the other: in every adjacent pair
    [localeCompare] of the earlier title against the later one is not
    positive. *)
Theorem searchResults_by_title
  (localeCompare : string -> string -> Q)
  (selectedTicker sentimentFilter : string) (data : list NewsApi.Article) :
  (forall s1 s2, (0 < localeCompare s1 s2)%Q -> (localeCompare s2 s1 <= 0)%Q) ->
  forall (i : nat) (a b : NewsApi.Article),
    nth_error (ArchiveLookup.searchResults localeCompare selectedTicker
                 sentimentFilter "title" data) i = Some a ->
    nth_error (ArchiveLookup.searchResults localeCompare selectedTicker
                 sentimentFilter "title" data) (S i) = Some b ->
    (localeCompare (NewsApi.title a) (NewsApi.title b) <= 0)%Q.
Proof.
  intro Hanti. unfold ArchiveLookup.searchResults.
  apply (Sorted_adjacent
           (fun a b => (localeCompare (NewsApi.title a) (NewsApi.title b)
                        <= 0)%Q)).
  apply sort_Sorted.
  - intros x y H. unfold ArchiveLookup.compareArticles in H. simpl in H.
    apply Hanti. exact H.
  - intros x y H. unfold ArchiveLookup.compareArticles in H. simpl in H.
    apply Qnot_lt_le. exact H.
Qed.

Lemma searchResults_by_title_witness :
  exists a b,
    nth_error (ArchiveLookup.searchResults by_length EmptyString "all" "title"
                 ArchiveLookup.getMockArchiveData) 0 = Some a /\
    nth_error (ArchiveLookup.searchResults by_length EmptyString "all" "title"
                 ArchiveLookup.getMockArchiveData) 1 = Some b /\
    (by_length (NewsApi.title a) (NewsApi.title b) <= 0)%Q.
Proof.
  do 2 eexists. split; [reflexivity|]. split; [reflexivity|].
  refine (searchResults_by_title by_length EmptyString "all"
            ArchiveLookup.getMockArchiveData _ 0%nat _ _ eq_refl eq_refl).
  intros s1 s2. unfold by_length.
  change 0%Q with (inject_Z 0). rewrite <- Zlt_Qlt, <- Zle_Qle. lia.
Defined.

(** ** Page count and page range, continued *)

Lemma pageCount_div (l : list NewsApi.Article) :
  ArchiveLookup.pageCount l = (- ((- Z.of_nat (List.length l)) / 10))%Z.
Proof.
  unfold ArchiveLookup.pageCount, Qceiling, Qfloor.
  simpl. rewrite Z.mul_1_r. reflexivity.
Qed.

Lemma pageCount_range (l : list NewsApi.Article) :
  (10 * (ArchiveLookup.pageCount l - 1) < Z.of_nat (List.length l)
     <= 10 * ArchiveLookup.pageCount l)%Z.
Proof.
  rewrite pageCount_div.
  set (n := Z.of_nat (List.length l)).
  assert (Hn : (0 <= n)%Z) by (unfold n; lia).
  pose proof (Z.div_mod (- n) 10 ltac:(lia)) as Hdm.
  pose proof (Z.mod_pos_bound (- n) 10 ltac:(lia)) as Hmb.
  lia.
Qed.

(** The page count is the least number of ten-article pages that hold the
    results: [10 * (pageCount - 1) < length <= 10 * pageCount]; it is 0
    exactly when there are no results. *)
Theorem pageCount_bounds (filteredArticles : list NewsApi.Article) :
  (10 * (ArchiveLookup.pageCount filteredArticles - 1)
     < Z.of_nat (List.length filteredArticles)
     <= 10 * ArchiveLookup.pageCount filteredArticles)%Z /\
  (ArchiveLookup.pageCount filteredArticles = 0%Z <-> filteredArticles = []).
Proof.
  pose proof (pageCount_range filteredArticles) as H.
  split; [exact H|].
  split; intro H0.
  - destruct filteredArticles; [reflexivity|].
    exfalso. simpl List.length in H. lia.
  - subst filteredArticles. reflexivity.
Qed.

(** A submitted search shows page 1 and, whenever it lists any article, a
    page count of at least 1. As long as the requests that follow return
    what the submitted search returned, a search re-run by the effect
    leaves this state as it is, and the current page stays within
    [1, totalPages] under any presses of the pagination buttons. *)
Theorem handleSearch_page_in_range
  (localeCompare : string -> string -> Q) (f : ArchiveLookup.Filters)
  (response : option (list NewsApi.Article)) (s : ArchiveLookup.State)
  (acts : list ArchiveLookup.Action) :
  ArchiveLookup.articles
    (ArchiveLookup.handleSearch localeCompare f response s) <> [] ->
  ArchiveLookup.currentPage
    (ArchiveLookup.handleSearch localeCompare f response s) = 1%Z /\
  (1 <= ArchiveLookup.totalPages
          (ArchiveLookup.handleSearch localeCompare f response s))%Z /\
  ArchiveLookup.searchArticles localeCompare (ArchiveLookup.selectedTicker f)
    (ArchiveLookup.sentimentFilter f) (ArchiveLookup.sortBy f) response
    (ArchiveLookup.handleSearch localeCompare f response s)
  = ArchiveLookup.handleSearch localeCompare f response s /\
  (1 <= ArchiveLookup.currentPage
          (ArchiveLookup.pressAll localeCompare f
             (map (fun a => (a, response)) acts)
             (ArchiveLookup.handleSearch localeCompare f response s))
     <= ArchiveLookup.totalPages
          (ArchiveLookup.handleSearch localeCompare f response s))%Z.
Proof.
  intro Hne.
  assert (Hc : ArchiveLookup.currentPage
                 (ArchiveLookup.handleSearch localeCompare f response s) = 1%Z)
    by (destruct response; reflexivity).
  assert (Ht : (1 <= ArchiveLookup.totalPages
                  (ArchiveLookup.handleSearch localeCompare f response s))%Z).
  { unfold ArchiveLookup.handleSearch, ArchiveLookup.searchArticles in *.
    destruct response as [data|]; cbn [ArchiveLookup.totalPages
                                       ArchiveLookup.articles] in *; [|lia].
    destruct (pageCount_range
                (ArchiveLookup.searchResults localeCompare
                   (ArchiveLookup.selectedTicker f)
                   (ArchiveLookup.sentimentFilter f)
                   (ArchiveLookup.sortBy f) data)) as [_ Hhi].
    destruct (ArchiveLookup.searchResults _ _ _ _ _); [congruence|].
    simpl List.length in Hhi. lia. }
  split; [exact Hc|]. split; [exact Ht|].
  split; [destruct response; reflexivity|].
  apply pressAll_same_response; [|lia].
  unfold ArchiveLookup.handleSearch.
  apply (searchArticles_state localeCompare (ArchiveLookup.selectedTicker f)
           (ArchiveLookup.sentimentFilter f) (ArchiveLookup.sortBy f) response).
Qed.

Lemma handleSearch_page_in_range_witness :
  ArchiveLookup.articles
    (ArchiveLookup.handleSearch (fun _ _ => 0%Q) earnings_query
       (Some fifteen_articles) page2of3) <> [] /\
  (1 <= ArchiveLookup.currentPage
          (ArchiveLookup.pressAll (fun _ _ => 0%Q) earnings_query
             [(ArchiveLookup.Next, Some fifteen_articles);
              (ArchiveLookup.Next, Some fifteen_articles);
              (ArchiveLookup.Previous, Some fifteen_articles)]
             (ArchiveLookup.handleSearch (fun _ _ => 0%Q) earnings_query
                (Some fifteen_articles) page2of3))
     <= 2)%Z.
Proof.
  assert (H : ArchiveLookup.articles
                (ArchiveLookup.handleSearch (fun _ _ => 0%Q) earnings_query
                   (Some fifteen_articles) page2of3) <> [])
    by discriminate.
  split; [exact H|].
  exact (proj2 (proj2 (proj2 (handleSearch_page_in_range (fun _ _ => 0%Q)
                                earnings_query (Some fifteen_articles) page2of3
                                [ArchiveLookup.Next; ArchiveLookup.Next;
                                 ArchiveLookup.Previous] H)))).
Defined.

(** A search replaces the results and the page count but keeps the
    current page, so the page can be left beyond a smaller page count.
    When the pagination bar is still rendered in such a state, Next
    brings the page back to the last page, while Previous only steps
    back by one. *)
Theorem stale_page_recovers
  (localeCompare : string -> string -> Q)
  (selectedTicker sentimentFilter sortBy : string)
  (response : option (list NewsApi.Article)) (s : ArchiveLookup.State) :
  ArchiveLookup.paginationRendered
    (ArchiveLookup.searchArticles localeCompare selectedTicker
       sentimentFilter sortBy response s) = true ->
  (ArchiveLookup.totalPages
     (ArchiveLookup.searchArticles localeCompare selectedTicker
        sentimentFilter sortBy response s)
   < ArchiveLookup.currentPage s)%Z ->
  ArchiveLookup.currentPage
    (ArchiveLookup.searchArticles localeCompare selectedTicker
       sentimentFilter sortBy response s) = ArchiveLookup.currentPage s /\
  ArchiveLookup.currentPage
    (ArchiveLookup.press ArchiveLookup.Next
       (ArchiveLookup.searchArticles localeCompare selectedTicker
          sentimentFilter sortBy response s))
  = ArchiveLookup.totalPages
      (ArchiveLookup.searchArticles localeCompare selectedTicker
         sentimentFilter sortBy response s) /\
  ArchiveLookup.currentPage
    (ArchiveLookup.press ArchiveLookup.Previous
       (ArchiveLookup.searchArticles localeCompare selectedTicker
          sentimentFilter sortBy response s))
  = (ArchiveLookup.currentPage s - 1)%Z.
Proof.
  set (s' := ArchiveLookup.searchArticles localeCompare selectedTicker
               sentimentFilter sortBy response s).
  intros Hr H.
  assert (Hc : ArchiveLookup.currentPage s' = ArchiveLookup.currentPage s)
    by (unfold s'; destruct response; reflexivity).
  destruct (paginationRendered_true s' Hr) as [_ Ht].
  split; [exact Hc|].
  unfold ArchiveLookup.press, ArchiveLookup.disabled. rewrite Hr.
  destruct (Z.eqb_spec (ArchiveLookup.currentPage s')
                       (ArchiveLookup.totalPages s')) as [E|_]; [lia|].
  destruct (Z.eqb_spec (ArchiveLookup.currentPage s') 1) as [E|_]; [lia|].
  simpl. rewrite Hc. lia.
Qed.

Lemma stale_page_recovers_witness :
  ArchiveLookup.currentPage
    (ArchiveLookup.press ArchiveLookup.Next
       (ArchiveLookup.searchArticles (fun _ _ => 0%Q) EmptyString "all" "date"
          (Some fifteen_articles)
          (ArchiveLookup.setCurrentPage 3 page2of3))) = 2%Z.
Proof.
  exact (proj1 (proj2 (stale_page_recovers (fun _ _ => 0%Q) EmptyString "all"
                         "date" (Some fifteen_articles)
                         (ArchiveLookup.setCurrentPage 3 page2of3)
                         eq_refl eq_refl))).
Defined.

(** ** The chart and the summary cards of the sentiment panel *)

Lemma length_string_app (s1 s2 : string) :
  String.length (s1 ++ s2) = (String.length s1 + String.length s2)%nat.
Proof.
  induction s1 as [|c s1 IH]; simpl; [reflexivity | rewrite IH; reflexivity].
Qed.

Lemma truthyString_orString (s : option string) (d : string) :
  Js.truthyString d = true -> Js.truthyString (Js.orString s d) = true.
Proof.
  intro H. unfold Js.orString.
  destruct s as [x|]; [|exact H].
  destruct (Js.truthyString x) eqn:E; assumption.
Qed.

Lemma formatChartData_map
  (f : string -> string) (g : Js.value -> string)
  (trends : list SentimentPanel.TrendItem) :
  SentimentPanel.formatChartData f g (Some trends) =
  map (fun item =>
         {| SentimentPanel.time := f (SentimentPanel.published_at item);
            SentimentPanel.sentiment := g (SentimentPanel.sentiment_score item);
            SentimentPanel.rawScore := SentimentPanel.sentiment_score item;
            SentimentPanel.chart_title :=
              substring 0 50 (SentimentPanel.title item) ++ "...";
            SentimentPanel.chart_ticker :=
              Js.orString (SentimentPanel.ticker item) "N/A" |})
      (firstn 20 trends).
Proof. destruct trends; reflexivity. Qed.

(** The chart shows the first twenty trend points and no more, in the
    order of the response: it has min(20, n) points and their raw scores
    are the scores of the first twenty items. *)
Theorem formatChartData_first_twenty
  (toLocaleTimeString : string -> string) (percentFixed1 : Js.value -> string)
  (trends : list SentimentPanel.TrendItem) :
  List.length
    (SentimentPanel.formatChartData toLocaleTimeString percentFixed1
       (Some trends)) = Nat.min 20 (List.length trends) /\
  map SentimentPanel.rawScore
    (SentimentPanel.formatChartData toLocaleTimeString percentFixed1
       (Some trends))
  = map SentimentPanel.sentiment_score (firstn 20 trends).
Proof.
  rewrite formatChartData_map. split.
  - rewrite length_map. apply length_firstn.
  - rewrite map_map. reflexivity.
Qed.

(** Every chart point has a non-empty ticker ("N/A" when the item has
    none) and a title of at most 53 characters that ends in "...". *)
Theorem formatChartData_labels
  (toLocaleTimeString : string -> string) (percentFixed1 : Js.value -> string)
  (trends : option (list SentimentPanel.TrendItem))
  (p : SentimentPanel.ChartPoint) :
  In p (SentimentPanel.formatChartData toLocaleTimeString percentFixed1 trends) ->
  Js.truthyString (SentimentPanel.chart_ticker p) = true /\
  (String.length (SentimentPanel.chart_title p) <= 53)%nat /\
  exists head, SentimentPanel.chart_title p = head ++ "...".
Proof.
  destruct trends as [l|]; [|intros []].
  rewrite formatChartData_map. intro H.
  apply in_map_iff in H. destruct H as [item [<- _]]. simpl.
  split; [apply truthyString_orString; reflexivity|].
  split.
  - rewrite length_string_app. simpl.
    pose proof (length_substring_le 0 50 (SentimentPanel.title item)). lia.
  - eexists. reflexivity.
Qed.

(** ** Trend direction against the numbers shown *)

Lemma trend_up_orZero (v : Js.value) :
  SentimentPanel.direction (SentimentPanel.getSentimentTrend v) = "up"
  <-> (1 # 10 < Js.orZero v)%Q.
Proof.
  rewrite trend_follows_badge.
  destruct v as [q| |]; unfold Js.gt, Js.lt, Js.orZero; simpl Js.toNumber;
    cbv iota.
  - destruct (Qeq_bool q 0) eqn:E0;
      [apply Qeq_bool_iff in E0 | apply Qeq_bool_neq in E0];
      q_cases; split; intro H; try discriminate; try reflexivity;
        try lra; exfalso; lra.
  - q_cases; split; intro H; try discriminate; exfalso; lra.
  - split; intro H; [discriminate | exfalso; lra].
Qed.

Lemma trend_down_orZero (v : Js.value) :
  SentimentPanel.direction (SentimentPanel.getSentimentTrend v) = "down"
  <-> (Js.orZero v < -1 # 10)%Q.
Proof.
  rewrite trend_follows_badge.
  destruct v as [q| |]; unfold Js.gt, Js.lt, Js.orZero; simpl Js.toNumber;
    cbv iota.
  - destruct (Qeq_bool q 0) eqn:E0;
      [apply Qeq_bool_iff in E0 | apply Qeq_bool_neq in E0];
      q_cases; split; intro H; try discriminate; try reflexivity;
        try lra; exfalso; lra.
  - q_cases; split; intro H; try discriminate; exfalso; lra.
  - split; intro H; [discriminate | exfalso; lra].
Qed.

Lemma renderPanel_average
  (f : string -> string) (g : Js.value -> string)
  (trendsData : option SentimentPanel.TrendsData)
  (view : SentimentPanel.PanelView) :
  SentimentPanel.renderPanel f g trendsData = Js.Ok view ->
  exists v,
    SentimentPanel.shown_trend view = SentimentPanel.getSentimentTrend v /\
    SentimentPanel.shown_average view = Js.orZero v.
Proof.
  destruct trendsData as [[t [[n a [[p q u]|]]|]]|]; simpl;
    intro H; injection H as <-; eexists; split; reflexivity.
Qed.

(** The trend shown in the panel header agrees with the average shown in
    the summary card, whatever the response: the direction is "up" exactly
    when the shown average exceeds 0.1 and "down" exactly when it is below
    -0.1 (a missing or null average shows as 0 and neutral). *)
Theorem panel_trend_matches_average
  (toLocaleTimeString : string -> string) (percentFixed1 : Js.value -> string)
  (trendsData : option SentimentPanel.TrendsData)
  (view : SentimentPanel.PanelView) :
  SentimentPanel.renderPanel toLocaleTimeString percentFixed1 trendsData
    = Js.Ok view ->
  (SentimentPanel.direction (SentimentPanel.shown_trend view) = "up"
     <-> (1 # 10 < SentimentPanel.shown_average view)%Q) /\
  (SentimentPanel.direction (SentimentPanel.shown_trend view) = "down"
     <-> (SentimentPanel.shown_average view < -1 # 10)%Q).
Proof.
  intro H. apply renderPanel_average in H. destruct H as [v [-> ->]].
  split; [apply trend_up_orZero | apply trend_down_orZero].
Qed.

Lemma panel_trend_matches_average_witness :
  SentimentPanel.renderPanel (fun s => s) (fun _ => EmptyString) None
    = Js.Ok zeroView /\
  (SentimentPanel.direction (SentimentPanel.shown_trend zeroView) = "up"
     <-> (1 # 10 < SentimentPanel.shown_average zeroView)%Q).
Proof.
  split; [reflexivity|].
  exact (proj1 (panel_trend_matches_average (fun s => s)
                  (fun _ => EmptyString) None zeroView eq_refl)).
Defined.

(** For one and the same average the dashboard card and the panel never
    contradict each other: when the panel's trend is "up" the card's
    change type is "positive", and when it is "down" the card's is
    "negative". *)
Theorem trend_and_card_agree (average : Q) :
  (SentimentPanel.direction
     (SentimentPanel.getSentimentTrend (Js.VNum average)) = "up" ->
   Dashboard.getSentimentChangeType average = "positive") /\
  (SentimentPanel.direction
     (SentimentPanel.getSentimentTrend (Js.VNum average)) = "down" ->
   Dashboard.getSentimentChangeType average = "negative").
Proof.
  rewrite trend_follows_badge.
  unfold Dashboard.getSentimentChangeType, Js.gt, Js.lt. simpl Js.toNumber.
  cbv iota.
  q_cases; split; intro H; try discriminate; try reflexivity; exfalso; lra.
Qed.

Lemma trend_and_card_agree_witness :
  Dashboard.getSentimentChangeType (28 # 100) = "positive".
Proof.
  apply (proj1 (trend_and_card_agree (28 # 100))). reflexivity.
Defined.

(** ** Polling the statistics *)

Lemma poll_failures (n : nat) (stats : Dashboard.Stats) :
  DashboardPolling.poll (repeat None n) stats = stats.
Proof.
  unfold DashboardPolling.poll.
  induction n as [|n IH]; simpl; [reflexivity | exact IH].
Qed.

(** Failed requests never clear the statistics: after any run of
    requests the state is the data of the last request that succeeded,
    however many failed after it, and the previous state if all failed. *)
Theorem poll_last_success
  (before : list (option Dashboard.Stats)) (data stats : Dashboard.Stats)
  (n : nat) :
  DashboardPolling.poll (before ++ Some data :: repeat None n) stats = data /\
  DashboardPolling.poll (repeat None n) stats = stats.
Proof.
  split; [|apply poll_failures].
  unfold DashboardPolling.poll.
  rewrite fold_left_app. simpl.
  apply poll_failures.
Qed.

Lemma formatChartData_labels_witness :
  exists p,
    In p (SentimentPanel.formatChartData (fun s => s) (fun _ => EmptyString)
            (Some [ {| SentimentPanel.published_at := "2024-01-01T10:00:00Z";
                       SentimentPanel.sentiment_score := Js.VNum (8 # 10);
                       SentimentPanel.title := "Apple Earnings Beat";
                       SentimentPanel.ticker := None |} ])) /\
    SentimentPanel.chart_ticker p = "N/A" /\
    Js.truthyString (SentimentPanel.chart_ticker p) = true.
Proof.
  eexists. split; [left; reflexivity|]. split; [reflexivity|].
  refine (proj1 (formatChartData_labels (fun s => s) (fun _ => EmptyString)
                   (Some [ {| SentimentPanel.published_at := "2024-01-01T10:00:00Z";
                              SentimentPanel.sentiment_score := Js.VNum (8 # 10);
                              SentimentPanel.title := "Apple Earnings Beat";
                              SentimentPanel.ticker := None |} ]) _ _)).
  left. reflexivity.
Defined.

(** ** Styling of the sentiment labels *)



(** In the dark-mode news feed the icon and the two colour classes of a
    card always show the same polarity, for every label including unknown
    and missing ones: the rising icon goes with the green classes and the
    falling icon with the red ones. *)
Theorem label_styles_agree (sentiment : option string) :
  (NewsFeedDark.getSentimentIcon sentiment = ArticleCard.TrendingUp <->
   NewsFeedDark.getSentimentColor sentiment
     = "bg-green-100 text-green-800 border-green-200") /\
  (NewsFeedDark.getSentimentIcon sentiment = ArticleCard.TrendingDown <->
   NewsFeedDark.getSentimentColor sentiment
     = "bg-red-100 text-red-800 border-red-200") /\
  (NewsFeedDark.getSentimentIcon sentiment = ArticleCard.TrendingUp <->
   NewsFeedDark.getSentimentColorDark sentiment
     = "bg-green-100 text-green-800 border-green-200 dark:bg-green-900/20 dark:text-green-400 dark:border-green-800") /\
  (NewsFeedDark.getSentimentIcon sentiment = ArticleCard.TrendingDown <->
   NewsFeedDark.getSentimentColorDark sentiment
     = "bg-red-100 text-red-800 border-red-200 dark:bg-red-900/20 dark:text-red-400 dark:border-red-800").
Proof.
  unfold NewsFeedDark.getSentimentIcon, NewsFeedDark.getSentimentColor,
    NewsFeedDark.getSentimentColorDark.
  destruct (Js.strictEq sentiment "positive" ||
            Js.strictEq sentiment "strongly_positive");
    [|destruct (Js.strictEq sentiment "negative" ||
                Js.strictEq sentiment "strongly_negative")];
    repeat split; intro H; try reflexivity; discriminate H.
Qed.



(** ** The Escape shortcut *)

Lemma handleClearFilters_shows_all (s : NewsFeedDark.State) :
  NewsFeedDark.filteredArticles (NewsFeedDark.handleClearFilters s)
  = NewsFeedDark.articles s.
Proof.
  unfold NewsFeedDark.filteredArticles, NewsFeedDark.handleClearFilters,
    NewsFeed.filteredArticles. simpl.
  apply filter_all. apply matches_all.
Qed.

(** Pressing Escape on the dashboard path clears both filters of the news
    feed, which then lists every loaded article, whatever modifier keys
    are held; on any other path no key changes the feed's filters. *)
Theorem escape_shows_all_articles
  (pathname : string) (event : Shortcuts.KeyEvent) (s : NewsFeedDark.State) :
  (Shortcuts.key event = "Escape" ->
   NewsFeedDark.filteredArticles
     (Shortcuts.deliver (Shortcuts.handleKeyDown "/" event) s)
   = NewsFeedDark.articles s) /\
  (pathname <> "/" ->
   Shortcuts.deliver (Shortcuts.handleKeyDown pathname event) s = s).
Proof.
  unfold Shortcuts.handleKeyDown. split.
  - intros ->. simpl. rewrite !andb_false_r. simpl.
    apply handleClearFilters_shows_all.
  - intro H. apply String.eqb_neq in H. rewrite H, andb_false_r.
    rewrite app_nil_r.
    destruct ((Shortcuts.ctrlKey event || Shortcuts.metaKey event) &&
              (Shortcuts.key event =? "d"));
      destruct ((Shortcuts.ctrlKey event || Shortcuts.metaKey event) &&
                (Shortcuts.key event =? "r")); reflexivity.
Qed.

Lemma escape_shows_all_articles_witness :
  NewsFeedDark.filteredArticles
    (Shortcuts.deliver
       (Shortcuts.handleKeyDown "/"
          {| Shortcuts.ctrlKey := false; Shortcuts.metaKey := false;
             Shortcuts.key := "Escape" |})
       {| NewsFeedDark.articles := ArchiveLookup.getMockArchiveData;
          NewsFeedDark.filter := "negative";
          NewsFeedDark.tickerFilter := "msft" |})
  = ArchiveLookup.getMockArchiveData.
Proof.
  match goal with
  | |- NewsFeedDark.filteredArticles
         (Shortcuts.deliver (Shortcuts.handleKeyDown _ ?e) ?s) = _ =>
      exact (proj1 (escape_shows_all_articles "/" e s) eq_refl)
  end.
Defined.

(** ** Statements against the schema *)

Lemma database_eta (db : Schema.database) :
  {| Schema.news_articles := Schema.news_articles db;
     Schema.sentiment_analyses := Schema.sentiment_analyses db;
     Schema.market_impacts := Schema.market_impacts db |} = db.
Proof. destruct db; reflexivity. Qed.

(** *** Stored rows pass their column checks *)

Lemma exec_rows_ok (st : Schema.statement) (db db' : Schema.database) :
  rows_ok db -> Schema.exec st db = Some db' -> rows_ok db'.
Proof.
  intros [Ha [Hs Hm]] H. unfold rows_ok.
  exec_cases H; simpl; repeat split; try assumption;
    try (apply forallb_filter; assumption).
  - apply (insert_forallb _ _ _ _ _ article_key_eqb_eq _ _ _ _
             (fun r' Hr' => proj1 (news_article_stored_Some _ _ Hr')) E Ha).
  - apply (update_forallb _ _ _ _ _ _ cond set _ _
             (fun x x' _ _ Hx' => proj1 (news_article_stored_Some _ _ Hx'))
             E Ha).
  - apply (insert_forallb _ _ _ _ _ N.eqb_eq _ _ _ _
             (fun r' Hr' => proj1 (sentiment_analysis_stored_Some _ _ Hr'))
             E Hs).
  - apply (insert_forallb _ _ _ _ _ N.eqb_eq _ _ _ _
             (fun r' Hr' => proj1 (market_impact_stored_Some _ _ Hr')) E Hm).
  - apply (update_forallb _ _ _ _ _ _ cond set _ _
             (fun x x' _ _ Hx' => proj1 (market_impact_stored_Some _ _ Hx'))
             E Hm).
Qed.

Lemma reachable_rows_ok (db : Schema.database) :
  Schema.reachable db -> rows_ok db.
Proof.
  intros [sts H].
  assert (H0 : rows_ok Schema.empty) by (repeat split).
  revert H0 H. generalize Schema.empty.
  induction sts as [|st rest IH]; simpl; intros d Hd H.
  - injection H as <-. exact Hd.
  - destruct (Schema.exec st d) as [d1|] eqn:E; [|discriminate].
    apply (IH d1); [|exact H]. eapply exec_rows_ok; eassumption.
Qed.

(** In every state of the store each article row respects the declared
    sizes: the title has at most 500 characters, the URL at most 1000,
    and an embedding that is present has exactly its declared dimension
    (768 for the sentiment vector, 1536 for the content vector). *)
Theorem stored_articles_respect_sizes
  (db : Schema.database) (r : Schema.news_article) :
  Schema.reachable db -> In r (Schema.news_articles db) ->
  (String.length (Schema.title r) <= 500)%nat /\
  (String.length (Schema.url r) <= 1000)%nat /\
  (forall v, Schema.sentiment_vector r = Some v -> List.length v = 768%nat) /\
  (forall v, Schema.content_vector r = Some v -> List.length v = 1536%nat).
Proof.
  intros Hr Hin.
  destruct (reachable_rows_ok db Hr) as [Ha _].
  rewrite forallb_forall in Ha. specialize (Ha r Hin).
  unfold Schema.news_article_ok in Ha.
  repeat (apply andb_true_iff in Ha; destruct Ha as [Ha ?]).
  unfold Schema.within, Schema.opt, Schema.dims in *.
  repeat split.
  - apply Nat.leb_le. assumption.
  - apply Nat.leb_le. assumption.
  - intros v Hv.
    match goal with
    | H : match Schema.sentiment_vector r with _ => _ end = true |- _ =>
        rewrite Hv in H; apply Nat.eqb_eq in H; exact H
    end.
  - intros v Hv.
    match goal with
    | H : match Schema.content_vector r with _ => _ end = true |- _ =>
        rewrite Hv in H; apply Nat.eqb_eq in H; exact H
    end.
Qed.

Lemma stored_articles_respect_sizes_witness :
  Schema.reachable two_articles /\
  (String.length
     (Schema.title (sample_article 1%N 1702650600000000%Z apple_url None None))
   <= 500)%nat.
Proof.
  assert (H : Schema.reachable two_articles).
  { exists [Schema.InsertArticle
              (sample_article 1%N 1702650600000000%Z apple_url None None);
            Schema.InsertArticle
              (sample_article 2%N 1702650600000000%Z apple_url None None)].
    reflexivity. }
  split; [exact H|].
  exact (proj1 (stored_articles_respect_sizes two_articles _ H
                  (or_introl eq_refl))).
Defined.

(** *** No foreign keys *)

(** The schema declares no foreign key. Deleting articles is always
    accepted and leaves every analysis and impact row in place, also
    those of the deleted articles; and an analysis row is accepted
    whenever it passes its column checks and its id is new, whether or
    not its article exists. *)
Theorem no_referential_integrity (db : Schema.database) :
  (forall cond, exists db',
     Schema.exec (Schema.DeleteArticle cond) db = Some db' /\
     Schema.sentiment_analyses db' = Schema.sentiment_analyses db /\
     Schema.market_impacts db' = Schema.market_impacts db) /\
  (forall r,
     Schema.sentiment_analysis_ok r = true ->
     ~ In (Schema.sa_id r) (map Schema.sa_id (Schema.sentiment_analyses db)) ->
     exists db',
       Schema.exec (Schema.InsertAnalysis r) db = Some db' /\
       Schema.sentiment_analyses db' =
         (Schema.sentiment_analyses db ++ [r])%list /\
       Schema.news_articles db' = Schema.news_articles db).
Proof.
  split.
  - intro cond. eexists. split; [reflexivity|]. split; reflexivity.
  - intros r Hok Hfresh. simpl.
    rewrite (insert_fresh _ _ Schema.sa_id N.eqb
               Schema.sentiment_analysis_stored N.eqb_eq r
               (Schema.sentiment_analyses db)
               (sentiment_analysis_ok_stored r Hok) Hfresh).
    eexists. split; [reflexivity|]. split; reflexivity.
Qed.

Lemma no_referential_integrity_witness :
  exists db',
    Schema.exec (Schema.InsertAnalysis (sample_analysis 1%N)) Schema.empty
      = Some db' /\
    Schema.sentiment_analyses db' = [sample_analysis 1%N] /\
    Schema.news_articles db' = [].
Proof.
  apply (proj2 (no_referential_integrity Schema.empty)
           (sample_analysis 1%N) eq_refl).
  intros [].
Defined.

(** *** Chunks of the hypertable *)

(** A primary-key conflict can only arise inside the chunk of the new
    row: checking the key against the rows of that chunk gives the same
    answer as checking it against the whole table, because the
    partitioning column is part of the key. *)
Theorem key_conflicts_within_chunk
  (chunk_index : Schema.timestamp -> Z) (r : Schema.news_article)
  (t : list Schema.news_article) :
  Schema.key_free Schema.article_key Schema.article_key_eqb
    (Schema.article_key r)
    (Schema.chunk chunk_index (Schema.chunk_of chunk_index r) t)
  = Schema.key_free Schema.article_key Schema.article_key_eqb
      (Schema.article_key r) t.
Proof.
  unfold Schema.key_free, Schema.chunk.
  induction t as [|x t IH]; [reflexivity|].
  cbn [List.filter forallb].
  destruct (Z.eqb_spec (Schema.chunk_of chunk_index x)
                       (Schema.chunk_of chunk_index r)) as [E|E].
  - cbn [forallb]. rewrite IH. reflexivity.
  - rewrite IH.
    assert (Hk : Schema.article_key_eqb (Schema.article_key x)
                   (Schema.article_key r) = false).
    { destruct (Schema.article_key_eqb (Schema.article_key x)
                  (Schema.article_key r)) eqn:Ek; [|reflexivity].
      apply article_key_eqb_eq in Ek. exfalso. apply E.
      unfold Schema.chunk_of. unfold Schema.article_key in Ek. congruence. }
    rewrite Hk. reflexivity.
Qed.

(** *** Insert, delete, update *)

Lemma filter_key_fresh (r : Schema.news_article)
  (t : list Schema.news_article) :
  ~ In (Schema.article_key r) (map Schema.article_key t) ->
  List.filter (fun x => negb (has_key_of r x)) t = t.
Proof.
  intro H. apply filter_all_in. intros x Hx.
  unfold has_key_of. apply negb_true_iff.
  destruct (Schema.article_key_eqb (Schema.article_key x)
              (Schema.article_key r)) eqn:E; [|reflexivity].
  apply article_key_eqb_eq in E. exfalso. apply H.
  rewrite <- E. apply in_map. exact Hx.
Qed.

(** Deleting by primary key the article just inserted restores the store
    exactly as it was before the INSERT. *)
Theorem insert_then_delete_restores
  (r : Schema.news_article) (db db1 : Schema.database) :
  Schema.exec (Schema.InsertArticle r) db = Some db1 ->
  Schema.exec (Schema.DeleteArticle (has_key_of r)) db1 = Some db.
Proof.
  simpl. intro H.
  destruct (Schema.insert _ _ _ r (Schema.news_articles db)) as [t'|] eqn:E;
    simpl in H; [|discriminate].
  injection H as <-.
  apply (insert_Some _ _ _ _ _ article_key_eqb_eq) in E.
  destruct E as [r' [Hs [-> Hfresh]]].
  destruct (news_article_stored_Some _ _ Hs) as [_ [Hk _]].
  rewrite Hk in Hfresh.
  unfold Schema.with_articles, Schema.delete. simpl.
  rewrite filter_app, (filter_key_fresh r _ Hfresh). simpl.
  unfold has_key_of at 1. rewrite Hk.
  rewrite (proj2 (article_key_eqb_eq _ _) eq_refl). simpl.
  rewrite app_nil_r, database_eta. reflexivity.
Qed.

Lemma insert_then_delete_restores_witness :
  Schema.exec
    (Schema.DeleteArticle
       (has_key_of (sample_article 3%N 1702650600000000%Z apple_url None None)))
    (Schema.with_articles two_articles
       (Schema.news_articles two_articles ++
        [sample_article 3%N 1702650600000000%Z apple_url None None])%list)
  = Some two_articles.
Proof.
  apply (insert_then_delete_restores
           (sample_article 3%N 1702650600000000%Z apple_url None None)
           two_articles).
  reflexivity.
Defined.

Lemma Permutation_filter {A : Type} (p : A -> bool) (l l' : list A) :
  Permutation l l' -> Permutation (List.filter p l) (List.filter p l').
Proof.
  induction 1 as [|x l l' _ IH|x y l|l l' l'' _ IH1 _ IH2]; simpl.
  - constructor.
  - destruct (p x); [constructor|]; exact IH.
  - destruct (p x), (p y); try apply Permutation_refl. constructor.
  - exact (Permutation_trans IH1 IH2).
Qed.

Section KeyPreservingUpdate.

Variables (R K : Type).
Variable key : R -> K.
Variable key_eqb : K -> K -> bool.
Variable stored : R -> option R.
Variable cond : R -> bool.
Variable set : R -> R.
Hypothesis key_eqb_eq : forall a b, key_eqb a b = true <-> a = b.
Hypothesis set_key : forall x, key (set x) = key x.

(** The rows other than [r], where [r] is the only row with its key. *)
Lemma filter_others (r : R) (l : list R) :
  ~ In (key r) (map key l) ->
  List.filter (fun x => negb (key_eqb (key x) (key r))) (r :: l) = l.
Proof.
  intro H. simpl.
  rewrite (proj2 (key_eqb_eq (key r) (key r)) eq_refl). simpl.
  apply filter_all_in. intros x Hx. apply negb_true_iff.
  destruct (key_eqb (key x) (key r)) eqn:E; [|reflexivity].
  apply key_eqb_eq in E. exfalso. apply H. rewrite <- E.
  apply in_map. exact Hx.
Qed.

Lemma key_free_others (k : K) (t : list R) :
  Schema.key_free key key_eqb k
    (List.filter (fun x => negb (key_eqb (key x) k)) t) = true.
Proof.
  unfold Schema.key_free. apply forallb_forall. intros x Hx.
  apply filter_In in Hx. tauto.
Qed.

Lemma update_rows_key_preserving (pending : list R) :
  forall t others,
  (forall x, In x pending -> cond x = true -> stored (set x) = Some (set x)) ->
  Permutation t (pending ++ others) ->
  NoDup (map key t) ->
  exists t',
    Schema.update_rows key key_eqb stored cond set pending t = Some t' /\
    Permutation t'
      (map (fun x => if cond x then set x else x) pending ++ others).
Proof.
  induction pending as [|r rest IH]; intros t others Hst Hperm Hnd.
  - exists t. split; [reflexivity | exact Hperm].
  - cbn [Schema.update_rows map].
    assert (Hst' : forall x, In x rest -> cond x = true ->
                             stored (set x) = Some (set x))
      by (intros x Hx; apply Hst; right; exact Hx).
    destruct (cond r) eqn:Ec.
    + rewrite (Hst r (or_introl eq_refl) Ec).
      rewrite set_key, key_free_others.
      assert (Hnd2 : NoDup (map key (r :: rest ++ others)))
        by (apply (Permutation_NoDup (Permutation_map key Hperm)); exact Hnd).
      inversion Hnd2 as [|k l Hfresh Hnd3]; subst.
      assert (Hf : Permutation
                (List.filter (fun x => negb (key_eqb (key x) (key r))) t)
                (rest ++ others)).
      { rewrite <- (filter_others r (rest ++ others) Hfresh).
        apply Permutation_filter. exact Hperm. }
      destruct (IH (List.filter (fun x => negb (key_eqb (key x) (key r))) t
                    ++ [set r])%list (others ++ [set r])%list Hst')
        as [t' [Hu Hp]].
      * rewrite app_assoc. apply Permutation_app_tail. exact Hf.
      * rewrite map_app. simpl. apply NoDup_snoc.
        -- apply NoDup_map_filter. exact Hnd.
        -- rewrite set_key. intro Hin. apply Hfresh.
           apply (Permutation_in _ (Permutation_map key Hf)). exact Hin.
      * exists t'. split; [exact Hu|].
        apply (Permutation_trans Hp).
        rewrite app_assoc. simpl.
        apply Permutation_sym. apply Permutation_cons_append.
    + destruct (IH t (r :: others) Hst') as [t' [Hu Hp]].
      * apply (Permutation_trans Hperm). simpl. apply Permutation_middle.
      * exact Hnd.
      * exists t'. split; [exact Hu|].
        apply (Permutation_trans Hp). apply Permutation_sym.
        simpl. apply Permutation_middle.
Qed.

End KeyPreservingUpdate.

(** An UPDATE of articles whose assignment leaves id and published_at
    alone and keeps rows within their column checks is never refused:
    the table then holds, in some order, the new version of every row
    selected and every other row as it was, and the other tables are
    untouched. *)
Theorem key_preserving_update_accepted
  (cond : Schema.news_article -> bool)
  (set : Schema.news_article -> Schema.news_article)
  (db : Schema.database) :
  Schema.reachable db ->
  (forall x, Schema.article_key (set x) = Schema.article_key x) ->
  (forall x, Schema.news_article_ok x = true ->
             Schema.news_article_ok (set x) = true) ->
  exists db',
    Schema.exec (Schema.UpdateArticle cond set) db = Some db' /\
    Permutation (Schema.news_articles db')
      (map (fun x => if cond x then set x else x) (Schema.news_articles db)) /\
    Schema.sentiment_analyses db' = Schema.sentiment_analyses db /\
    Schema.market_impacts db' = Schema.market_impacts db.
Proof.
  intros Hr Hkey Hok.
  destruct (reachable_rows_ok db Hr) as [Ha _].
  destruct (reachable_keys_unique db Hr) as [Hk _].
  rewrite forallb_forall in Ha.
  destruct (update_rows_key_preserving _ _ Schema.article_key
              Schema.article_key_eqb Schema.news_article_stored cond set
              article_key_eqb_eq Hkey (Schema.news_articles db)
              (Schema.news_articles db) [])
    as [t' [Hu Hp]].
  - intros x Hx _. apply news_article_ok_stored. apply Hok. apply Ha. exact Hx.
  - rewrite app_nil_r. apply Permutation_refl.
  - exact Hk.
  - exists (Schema.with_articles db t'). split.
    + simpl. unfold Schema.update. rewrite Hu. reflexivity.
    + rewrite app_nil_r in Hp. split; [exact Hp|]. split; reflexivity.
Qed.

Lemma key_preserving_update_accepted_witness :
  Schema.reachable two_articles /\
  exists db',
    Schema.exec
      (Schema.UpdateArticle (Pipeline.is_article 1%N) Pipeline.set_archived)
      two_articles = Some db' /\
    Permutation (Schema.news_articles db')
      [Pipeline.set_archived
         (sample_article 1%N 1702650600000000%Z apple_url None None);
       sample_article 2%N 1702650600000000%Z apple_url None None].
Proof.
  assert (H : Schema.reachable two_articles).
  { exists [Schema.InsertArticle
              (sample_article 1%N 1702650600000000%Z apple_url None None);
            Schema.InsertArticle
              (sample_article 2%N 1702650600000000%Z apple_url None None)].
    reflexivity. }
  split; [exact H|].
  destruct (key_preserving_update_accepted
              (Pipeline.is_article 1%N) Pipeline.set_archived
              two_articles H
              (fun x => eq_refl) (fun x Hx => Hx))
    as [db' [He [Hp _]]].
  exists db'. split; [exact He | exact Hp].
Defined.
